(** * DeskAnalyse: hardware_info.py, collectors and source probes

    A shallow embedding of the parts of [src/core/hardware_info.py] that
    decide how probe outputs are parsed and merged.  Python strings are
    Rocq [string]s (UTF-8 bytes); [str.strip] and [str.lower] act on the
    ASCII range.  A Python dict of strings is an association list kept in
    insertion order, as a CPython dict is. *)

From Stdlib Require Import String Ascii List ZArith Bool Lia.
Import ListNotations.
Open Scope string_scope.

(** ** Python string primitives *)

(** The marker every collector uses for an unresolved field. *)
Definition NA : string := "Não disponível".

Definition is_space (c : ascii) : bool :=
  match nat_of_ascii c with
  | 9 | 10 | 11 | 12 | 13 | 32 => true
  | _ => false
  end.

Fixpoint lstrip (s : string) : string :=
  match s with
  | EmptyString => EmptyString
  | String c s' => if is_space c then lstrip s' else s
  end.

Fixpoint rstrip (s : string) : string :=
  match s with
  | EmptyString => EmptyString
  | String c s' =>
      let r := rstrip s' in
      if String.eqb r "" && is_space c then "" else String c r
  end.

(** [s.strip()] *)
Definition strip (s : string) : string := rstrip (lstrip s).

Definition lower_ascii (c : ascii) : ascii :=
  let n := nat_of_ascii c in
  if (65 <=? n)%nat && (n <=? 90)%nat then ascii_of_nat (n + 32)%nat else c.

(** [s.lower()] *)
Fixpoint lower (s : string) : string :=
  match s with
  | EmptyString => EmptyString
  | String c s' => String (lower_ascii c) (lower s')
  end.

Fixpoint starts_with (p s : string) : bool :=
  match p, s with
  | EmptyString, _ => true
  | String _ _, EmptyString => false
  | String a p', String b s' => Ascii.eqb a b && starts_with p' s'
  end.

Fixpoint find_nat (sub s : string) : option nat :=
  if starts_with sub s then Some 0
  else match s with
       | EmptyString => None
       | String _ s' => option_map S (find_nat sub s')
       end.

(** [s.find(sub)]: the first offset of [sub] in [s], or -1. *)
Definition py_find (sub s : string) : Z :=
  match find_nat sub s with Some n => Z.of_nat n | None => (-1)%Z end.

(** [sub in s] *)
Definition contains (sub s : string) : bool :=
  match find_nat sub s with Some _ => true | None => false end.

(** [s.split(c)] for a one-character separator. *)
Fixpoint split_on (c : ascii) (s : string) : list string :=
  match s with
  | EmptyString => [""]
  | String d s' =>
      if Ascii.eqb d c then "" :: split_on c s'
      else match split_on c s' with
           | x :: xs => String d x :: xs
           | [] => [String d ""]
           end
  end.

Definition nl : ascii := ascii_of_nat 10%nat.

(** [s.split("\n")] *)
Definition split_lines (s : string) : list string := split_on nl s.

(** [s[a:b]] for [0 <= a], [0 <= b]. *)
Definition slice (s : string) (a b : nat) : string := substring a (b - a) s.

(** ** Python dicts of strings *)

Definition dict := list (string * string).

Fixpoint dict_get {V : Type} (d : list (string * V)) (k : string) : option V :=
  match d with
  | [] => None
  | (k', v) :: d' => if String.eqb k' k then Some v else dict_get d' k
  end.

(** [d[k] = v]: an existing key keeps its place, a new key is appended. *)
Fixpoint dict_set {V : Type} (d : list (string * V)) (k : string) (v : V)
  : list (string * V) :=
  match d with
  | [] => [(k, v)]
  | (k', v') :: d' =>
      if String.eqb k' k then (k', v) :: d' else (k', v') :: dict_set d' k v
  end.

(** ** The merge loop shared by the scalar collectors

    [get_motherboard_info], [get_cpu_info], [get_tpm_info],
    [get_bluetooth_info] and [get_wifi_info] all run this loop.  A probe
    outcome is [None] when [method()] raised (the collector prints the
    error and goes on), [Some d] when it returned the dict [d]. *)

(** [value and value != "Não disponível"] *)
Definition valid (v : string) : bool :=
  negb (String.eqb v "") && negb (String.eqb v NA).

(** [for key, value in method_result.items(): if valid: result[key] = value] *)
Definition merge_probe (result method_result : dict) : dict :=
  fold_left (fun r kv => if valid (snd kv) then dict_set r (fst kv) (snd kv) else r)
    method_result result.

(** [all(value != "Não disponível" for value in result.values())] *)
Definition all_resolved (result : dict) : bool :=
  forallb (fun kv => negb (String.eqb (snd kv) NA)) result.

Fixpoint collect (result : dict) (outcomes : list (option dict)) : dict :=
  match outcomes with
  | [] => result
  | None :: rest => collect result rest
  | Some [] :: rest => collect result rest
  | Some method_result :: rest =>
      let r := merge_probe result method_result in
      if all_resolved r then r else collect r rest
  end.

Definition motherboard_init : dict :=
  [("manufacturer", NA); ("model", NA); ("serial_number", NA)].

Definition cpu_init : dict := [("brand", NA); ("model", NA)].

Definition tpm_init : dict :=
  [("version", NA); ("status", NA); ("manufacturer", NA)].

(** [get_motherboard_info], given the outcomes of its three probes. *)
Definition get_motherboard_info (outcomes : list (option dict)) : dict :=
  collect motherboard_init outcomes.

Definition get_cpu_info (outcomes : list (option dict)) : dict :=
  collect cpu_init outcomes.

(** ** The RAM collector [get_ram_info]

    A RAM probe returns [{"total", "slots_used", "modules"}]; a module is a
    dict of strings. *)

Record ram_info := mk_ram {
  total : string;
  slots_used : string;
  modules : list dict
}.

Definition ram_init : ram_info := mk_ram NA NA [].

(** The body of [for key, value in method_result.items()]: the module list
    is replaced whenever the probe's list is non-empty, the two scalar
    fields follow the [valid] rule. *)
Definition ram_merge (result method_result : ram_info) : ram_info :=
  mk_ram
    (if valid (total method_result) then total method_result else total result)
    (if valid (slots_used method_result) then slots_used method_result
     else slots_used result)
    (match modules method_result with
     | [] => modules result
     | ms => ms
     end).

(** [total != NA and slots_used != NA and modules] *)
Definition ram_complete (r : ram_info) : bool :=
  negb (String.eqb (total r) NA) && negb (String.eqb (slots_used r) NA)
  && match modules r with [] => false | _ => true end.

Fixpoint ram_collect (result : ram_info) (outcomes : list (option ram_info))
  : ram_info :=
  match outcomes with
  | [] => result
  | None :: rest => ram_collect result rest
  | Some method_result :: rest =>
      let r := ram_merge result method_result in
      if ram_complete r then r else ram_collect r rest
  end.

(** [get_ram_info], given the outcomes of its four probes. *)
Definition get_ram_info (outcomes : list (option ram_info)) : ram_info :=
  ram_collect ram_init outcomes.

(** ** Disk type classification *)

(** A WMI attribute that may be missing or [None]: [hasattr(o, a) and o.a]
    is true for [Some s] with [s <> ""]. *)
Definition truthy (o : option string) : bool :=
  match o with Some s => negb (String.eqb s "") | None => false end.

Definition opt_str (o : option string) : string :=
  match o with Some s => s | None => "" end.

(** The [disk_type] computation of [_get_disk_info_wmi], from the
    [MediaType] and [Model] attributes of a [Win32_DiskDrive]. *)
Definition wmi_disk_type (media_type model : option string) : string :=
  if truthy media_type then
    let media_type_str := lower (opt_str media_type) in
    if contains "ssd" media_type_str || contains "solid state" media_type_str
    then "SSD"
    else if contains "nvme" media_type_str then "NVMe"
    else "HDD"
  else if truthy model &&
          (contains "ssd" (lower (opt_str model)) ||
           contains "nvme" (lower (opt_str model))) then
    if contains "nvme" (lower (opt_str model)) then "NVMe" else "SSD"
  else "HDD".

(** The [disk_type] computation of [_get_disk_info_wmic], from the
    [mediatype] and [model] column values ([""] when the column is missing). *)
Definition wmic_disk_type (mediatype_col model_col : string) : string :=
  let media_type := lower mediatype_col in
  let model := lower model_col in
  let disk_type :=
    if contains "ssd" media_type || contains "solid state" media_type
       || contains "ssd" model
    then "SSD" else "HDD" in
  if contains "nvme" media_type || contains "nvme" model then "NVMe"
  else disk_type.

(** ** Fixed-width tabular output (WMIC)

    Each caller finds its keywords in the lower-cased header, sorts the
    [(index, key)] pairs and cuts every data line at the sorted offsets. *)

Definition pair_leb (a b : Z * string) : bool :=
  (fst a <? fst b)%Z || ((fst a =? fst b)%Z && String.leb (snd a) (snd b)).

Fixpoint insert_pair (x : Z * string) (l : list (Z * string)) : list (Z * string) :=
  match l with
  | [] => [x]
  | y :: l' => if pair_leb x y then x :: l else y :: insert_pair x l'
  end.

(** [sorted(...)] on [(int, str)] tuples. *)
Fixpoint sort_pairs (l : list (Z * string)) : list (Z * string) :=
  match l with
  | [] => []
  | x :: l' => insert_pair x (sort_pairs l')
  end.

(** The loop [for i, (index, key) in enumerate(indices)]: a missing keyword
    ([index < 0]) is skipped; a column ends where the next one starts, or
    at the end of the line. *)
Fixpoint column_values (indices : list (Z * string)) (line : string)
  : list (string * string) :=
  match indices with
  | [] => []
  | (index, key) :: rest =>
      if (index <? 0)%Z then column_values rest line
      else
        let end_index :=
          match rest with
          | (j, _) :: _ => if (0 <=? j)%Z then Z.to_nat j else String.length line
          | [] => String.length line
          end in
        (key, strip (slice line (Z.to_nat index) end_index))
          :: column_values rest line
  end.

(** ** Source probe outcomes *)

(** What [subprocess.check_output] does: it returns the decoded stdout or
    raises (command not found, non-zero exit, timeout, undecodable bytes). *)
Inductive cmd_outcome :=
| CmdOk (stdout : string)
| CmdLaunchError
| CmdNonZeroExit (returncode : Z)
| CmdTimeout
| CmdUndecodable.

(** [_get_motherboard_info_wmic] *)
Definition motherboard_wmic (is_windows : bool) (o : cmd_outcome) : dict :=
  if negb is_windows then motherboard_init
  else
    match o with
    | CmdOk output =>
        match split_lines (strip output) with
        | header :: line1 :: _ =>
            let h := lower header in
            let indices :=
              sort_pairs [(py_find "manufacturer" h, "manufacturer");
                          (py_find "product" h, "model");
                          (py_find "serialnumber" h, "serial_number")] in
            let line := strip line1 in
            fold_left (fun r kv => if String.eqb (snd kv) "" then r
                                   else dict_set r (fst kv) (snd kv))
              (column_values indices line) motherboard_init
        | _ => motherboard_init
        end
    | _ => motherboard_init
    end.

(** [s.split(sep)] for a non-empty separator. *)
Fixpoint split_sep_fuel (fuel : nat) (sep s : string) : list string :=
  match fuel with
  | O => [s]
  | S f =>
      match find_nat sep s with
      | None => [s]
      | Some i =>
          substring 0 i s
            :: split_sep_fuel f sep
                 (substring (i + String.length sep)
                    (String.length s - i - String.length sep) s)
      end
  end.

Definition split_sep (sep s : string) : list string :=
  split_sep_fuel (S (String.length s)) sep s.

(** [s.split(":", 1)[1]], for a line known to contain [":"]. *)
Fixpoint after_colon (s : string) : string :=
  match s with
  | EmptyString => EmptyString
  | String c s' => if Ascii.eqb c ":"%char then s' else after_colon s'
  end.

(** [_get_motherboard_info_registry]; [winreg_ok] says the module imported. *)
Definition motherboard_registry (is_windows winreg_ok : bool) (o : cmd_outcome)
  : dict :=
  if negb is_windows || negb winreg_ok then motherboard_init
  else
    match o with
    | CmdOk output =>
        fold_left
          (fun r line =>
             if contains "BaseBoardManufacturer" line && contains "REG_SZ" line then
               match split_sep "REG_SZ" line with
               | _ :: part1 :: _ => dict_set r "manufacturer" (strip part1)
               | _ => r
               end
             else if contains "BaseBoardProduct" line && contains "REG_SZ" line then
               match split_sep "REG_SZ" line with
               | _ :: part1 :: _ => dict_set r "model" (strip part1)
               | _ => r
               end
             else r)
          (split_lines (strip output)) motherboard_init
    | _ => motherboard_init
    end.

(** A [Win32_BaseBoard] instance: [None] for a missing or [None] attribute. *)
Record board := mk_board {
  Manufacturer : option string;
  Product : option string;
  SerialNumber : option string
}.

Fixpoint boards_loop (result : dict) (boards : list board) : dict :=
  match boards with
  | [] => result
  | b :: rest =>
      let r1 := if truthy (Manufacturer b)
                then dict_set result "manufacturer" (strip (opt_str (Manufacturer b)))
                else result in
      let r2 := if truthy (Product b)
                then dict_set r1 "model" (strip (opt_str (Product b))) else r1 in
      let r3 := if truthy (SerialNumber b)
                then dict_set r2 "serial_number" (strip (opt_str (SerialNumber b)))
                else r2 in
      match dict_get r3 "model" with
      | Some m => if negb (String.eqb m NA) then r3 else boards_loop r3 rest
      | None => boards_loop r3 rest
      end
  end.

(** [_get_motherboard_info_wmi]: [client_ok] says [self.wmi_client] is set;
    the query is [None] when [Win32_BaseBoard()] raised. *)
Definition motherboard_wmi (client_ok is_windows : bool)
  (query : option (list board)) : dict :=
  if negb client_ok || negb is_windows then motherboard_init
  else match query with
       | None => motherboard_init
       | Some boards => boards_loop motherboard_init boards
       end.

(** ** The TPM PowerShell probe *)

(** A JSON value as [json.loads] returns it: [JOther] stands for a list or
    an object, with its [str()] and whether it is non-empty. *)
Inductive jval :=
| JNull
| JBool (b : bool)
| JInt (z : Z)
| JStr (s : string)
| JOther (repr : string) (nonempty : bool).

(** Python truthiness of a JSON value. *)
Definition jtruthy (v : jval) : bool :=
  match v with
  | JNull => false
  | JBool b => b
  | JInt z => negb (z =? 0)%Z
  | JStr s => negb (String.eqb s "")
  | JOther _ ne => ne
  end.

Fixpoint digits_fuel (fuel : nat) (n : nat) (acc : string) : string :=
  match fuel with
  | O => acc
  | S f =>
      let acc' := String (ascii_of_nat (48 + n mod 10)%nat) acc in
      if (n <? 10)%nat then acc' else digits_fuel f (n / 10)%nat acc'
  end.

Definition str_of_Z (z : Z) : string :=
  if (z <? 0)%Z then "-" ++ digits_fuel (S (Z.to_nat (- z))) (Z.to_nat (- z)) ""
  else digits_fuel (S (Z.to_nat z)) (Z.to_nat z) "".

(** [str(v)] *)
Definition py_str (v : jval) : string :=
  match v with
  | JNull => "None"
  | JBool true => "True"
  | JBool false => "False"
  | JInt z => str_of_Z z
  | JStr s => s
  | JOther r _ => r
  end.

(** What [json.loads(stdout)] returns: an object (its members) or any
    other JSON value.  Every member access the probe makes on a non-object
    raises [TypeError] before the first assignment, so only the object case
    is told apart. *)
Inductive json_data :=
| JObject (members : list (string * jval))
| JNonObject.

(** What [Popen(...).communicate(timeout=10)] does, and for an exit the
    return code, the decoded stdout and [json.loads(stdout)] ([None] when it
    raises [JSONDecodeError]). *)
Inductive ps_outcome :=
| PsExited (returncode : Z) (stdout : string) (json : option json_data)
| PsLaunchError
| PsTimeout
| PsUndecodable.

Definition tpm_record := list (string * jval).

Definition tpm_ps_init : tpm_record :=
  [("version", JStr NA); ("status", JStr NA); ("manufacturer", JStr NA)].

(** The [except json.JSONDecodeError] branch: the output is read line by
    line as [Key: value] text. *)
Definition tpm_text_line (r : tpm_record) (line : string) : tpm_record :=
  if contains "ManufacturerVersion" line && contains ":" line then
    dict_set r "version" (JStr (strip (after_colon line)))
  else if contains "TpmEnabled" line && contains ":" line then
    let value := lower (strip (after_colon line)) in
    dict_set r "status"
      (JStr (if String.eqb value "true" then "Habilitado" else "Desabilitado"))
  else if contains "ManufacturerIdTxt" line && contains ":" line then
    dict_set r "manufacturer" (JStr (strip (after_colon line)))
  else if contains "ManufacturerId" line && contains ":" line then
    dict_set r "manufacturer" (JStr (strip (after_colon line)))
  else r.

Definition member_truthy (data : list (string * jval)) (k : string) : option jval :=
  match dict_get data k with
  | Some v => if jtruthy v then Some v else None
  | None => None
  end.

(** The JSON object branch. *)
Definition tpm_json (data : list (string * jval)) : tpm_record :=
  let r1 := match member_truthy data "ManufacturerVersion" with
            | Some v => dict_set tpm_ps_init "version" v
            | None => tpm_ps_init
            end in
  let r2 := match dict_get data "TpmEnabled" with
            | Some v => dict_set r1 "status"
                          (JStr (if jtruthy v then "Habilitado" else "Desabilitado"))
            | None =>
                match dict_get data "TpmReady" with
                | Some v => dict_set r1 "status"
                              (JStr (if jtruthy v then "Pronto" else "Não pronto"))
                | None => r1
                end
            end in
  match member_truthy data "ManufacturerIdTxt" with
  | Some v => dict_set r2 "manufacturer" v
  | None =>
      match member_truthy data "ManufacturerId" with
      | Some v => dict_set r2 "manufacturer" (JStr (py_str v))
      | None => r2
      end
  end.

(** [_get_tpm_info_powershell] *)
Definition tpm_powershell (is_windows : bool) (o : ps_outcome) : tpm_record :=
  if negb is_windows then tpm_ps_init
  else
    match o with
    | PsExited rc stdout json =>
        if (rc =? 0)%Z && negb (String.eqb (strip stdout) "") then
          match json with
          | Some (JObject data) => tpm_json data
          | Some JNonObject => tpm_ps_init
          | None => fold_left tpm_text_line (split_lines (strip stdout)) tpm_ps_init
          end
        else tpm_ps_init
    | _ => tpm_ps_init
    end.

(** ** RAM modules from the PowerShell CIM probe *)

Definition generic_manufacturers : list string :=
  ["unknown"; "not specified"; "0000"; "to be filled by o.e.m."].

(** [manufacturer.lower() in [...]] *)
Definition is_generic (m : string) : bool :=
  existsb (String.eqb (lower m)) generic_manufacturers.

(** The [elif] chain on the part number in [_get_ram_info_powershell_cim]. *)
Definition part_number_vendor (part_number : string) : string :=
  if contains "KHX" part_number || contains "HX" part_number then "Kingston"
  else if contains "CMK" part_number || contains "CMW" part_number
          || contains "CM" part_number then "Corsair"
  else if contains "F4" part_number && contains "G" part_number then "G.Skill"
  else if contains "BLS" part_number || contains "CT" part_number then "Crucial"
  else if contains "AX4U" part_number then "ADATA XPG"
  else if contains "M378" part_number then "Samsung"
  else if contains "HMA" part_number || contains "HMP" part_number then "Hynix"
  else if contains "PVS" part_number then "Patriot Viper"
  else if contains "TED4" part_number then "Teamgroup Elite"
  else "Não identificado".

(** The manufacturer of a module, from the stripped [Manufacturer] and
    [PartNumber] strings. *)
Definition resolve_manufacturer (manufacturer part_number : string) : string :=
  let m1 :=
    if String.eqb manufacturer "" || is_generic manufacturer then
      if negb (String.eqb part_number "") then part_number_vendor part_number
      else manufacturer
    else manufacturer in
  if String.eqb m1 "" || is_generic m1 then "Não identificado" else m1.

(** The resolution as the spec words it: an ordered table of part-number
    patterns, each with its canonical vendor name. *)
Definition ram_vendor_table : list ((string -> bool) * string) :=
  [(fun p => contains "KHX" p || contains "HX" p, "Kingston");
   (fun p => contains "CMK" p || contains "CMW" p || contains "CM" p, "Corsair");
   (fun p => contains "F4" p && contains "G" p, "G.Skill");
   (fun p => contains "BLS" p || contains "CT" p, "Crucial");
   (fun p => contains "AX4U" p, "ADATA XPG");
   (fun p => contains "M378" p, "Samsung");
   (fun p => contains "HMA" p || contains "HMP" p, "Hynix");
   (fun p => contains "PVS" p, "Patriot Viper");
   (fun p => contains "TED4" p, "Teamgroup Elite")].

Fixpoint first_match (table : list ((string -> bool) * string)) (p : string)
  : option string :=
  match table with
  | [] => None
  | (pat, name) :: rest => if pat p then Some name else first_match rest p
  end.

Definition spec_resolve_manufacturer (manufacturer part_number : string) : string :=
  if negb (String.eqb manufacturer "") && negb (is_generic manufacturer)
  then manufacturer
  else match first_match ram_vendor_table part_number with
       | Some name => name
       | None => "Não identificado"
       end.

(** [x.strip()] on a JSON value: only a string has [strip]. *)
Definition strip_json (v : jval) : option string :=
  match v with JStr s => Some (strip s) | _ => None end.

(** [int(x)] on a JSON value (a string is read as optional sign and digits). *)
Definition digit_val (c : ascii) : option nat :=
  let n := nat_of_ascii c in
  if (48 <=? n)%nat && (n <=? 57)%nat then Some (n - 48)%nat else None.

Fixpoint digits_value (s : string) (acc : Z) : option Z :=
  match s with
  | EmptyString => Some acc
  | String c s' =>
      match digit_val c with
      | Some d => digits_value s' (acc * 10 + Z.of_nat d)%Z
      | None => None
      end
  end.

Definition py_int_str (s : string) : option Z :=
  match strip s with
  | EmptyString => None
  | String c rest as t =>
      if Ascii.eqb c "-"%char then
        match rest with EmptyString => None | _ => option_map Z.opp (digits_value rest 0) end
      else if Ascii.eqb c "+"%char then
        match rest with EmptyString => None | _ => digits_value rest 0 end
      else digits_value t 0
  end.

Definition py_int (v : jval) : option Z :=
  match v with
  | JInt z => Some z
  | JBool b => Some (if b then 1%Z else 0%Z)
  | JStr s => py_int_str s
  | _ => None
  end.

Definition jget (module : list (string * jval)) (k : string) (default : jval) : jval :=
  match dict_get module k with Some v => v | None => default end.

(** The body of [for module in data] in [_get_ram_info_powershell_cim]:
    [None] when it raises (the whole probe then returns the all-unavailable
    record).  [size_text] renders [f"{round(c / 1024**3, 2)} GB"]. *)
Definition cim_module (size_text : Z -> string) (module : list (string * jval))
  : option dict :=
  match py_int (jget module "Capacity" (JInt 0)) with
  | None => None
  | Some capacity =>
      match strip_json (jget module "Manufacturer" (JStr "")) with
      | None => None
      | Some manufacturer =>
          let part :=
            if String.eqb manufacturer "" || is_generic manufacturer
            then strip_json (jget module "PartNumber" (JStr ""))
            else Some "" in
          match part with
          | None => None
          | Some part_number =>
              let bank := strip_json (jget module "BankLabel" (JStr "")) in
              let location :=
                match bank with
                | Some b => if String.eqb b ""
                            then strip_json (jget module "DeviceLocator" (JStr ""))
                            else Some b
                | None => None
                end in
              match location with
              | None => None
              | Some bank_label =>
                  Some [("size", size_text capacity);
                        ("manufacturer", resolve_manufacturer manufacturer part_number);
                        ("location", bank_label);
                        ("speed", py_str (jget module "Speed" (JInt 0)) ++ " MHz")]
              end
          end
      end
  end.

(** The [location] of [_get_ram_info_wmi], from [BankLabel] and
    [DeviceLocator]. *)
Definition wmi_module_location (bank_label device_locator : option string) : string :=
  let b := if truthy bank_label then opt_str bank_label else NA in
  let d := if truthy device_locator then opt_str device_locator else NA in
  if negb (String.eqb b NA) then b else d.

(** ** Disks and GPUs: the list collectors *)

(** A disk dict [{"model", "type", "size", "free_space"}]. *)
Record disk := mk_disk {
  dmodel : string;
  dtype : string;
  dsize : string;
  dfree_space : string
}.

(** The update of [existing_disk] by a [disk] with the same model. *)
Definition disk_fill (existing d : disk) : disk :=
  mk_disk (dmodel existing)
    (if negb (String.eqb (dtype d) NA) && String.eqb (dtype existing) NA
     then dtype d else dtype existing)
    (dsize existing)
    (if negb (String.eqb (dfree_space d) NA) && String.eqb (dfree_space existing) NA
     then dfree_space d else dfree_space existing).

(** [for existing_disk in all_disks: ... break]; [all_disks.append(disk)]
    when no model matched.  The appended dict is the probe's own object,
    which no later code reads. *)
Fixpoint merge_disk (all_disks : list disk) (d : disk) : list disk :=
  match all_disks with
  | [] => [d]
  | e :: rest =>
      if String.eqb (dmodel e) (dmodel d) then disk_fill e d :: rest
      else e :: merge_disk rest d
  end.

Fixpoint disk_collect (all_disks : list disk) (outcomes : list (option (list disk)))
  : list disk :=
  match outcomes with
  | [] => all_disks
  | Some result :: rest => disk_collect (fold_left merge_disk result all_disks) rest
  | None :: rest => disk_collect all_disks rest
  end.

(** [get_disk_info], given the outcomes of its three probes. *)
Definition get_disk_info (outcomes : list (option (list disk))) : list disk :=
  disk_collect [] outcomes.

(** [get_gpu_info]: a GPU dict is [{"model": m}]; a GPU whose model is
    already listed is dropped. *)
Definition merge_gpu (result : list string) (gpu : string) : list string :=
  if existsb (String.eqb gpu) result then result else (result ++ [gpu])%list.

Fixpoint gpu_collect (result : list string) (outcomes : list (option (list string)))
  : list string :=
  match outcomes with
  | [] => result
  | Some method_result :: rest => gpu_collect (fold_left merge_gpu method_result result) rest
  | None :: rest => gpu_collect result rest
  end.

Definition get_gpu_info (outcomes : list (option (list string))) : list string :=
  gpu_collect [] outcomes.

(** ** The WMIC disk probe [_get_disk_info_wmic]

    The float arithmetic ([round(b / 1024**3, 2)], the running sum, the
    [> 0] test and the [:.2f] rendering) is kept abstract. *)

Section WmicDisk.

Variable G : Type.
(** [round(b / (1024**3), 2)] *)
Variable gb : Z -> G.
Variable gzero : G.
Variable gadd : G -> G -> G.
(** [x > 0] *)
Variable gpos : G -> bool.
(** [f"{x:.2f} GB"] *)
Variable fmt_gb : G -> string.

Definition col_get (data : list (string * string)) (k default : string) : string :=
  match dict_get data k with Some v => v | None => default end.

(** [int(data.get(k, 0))]: [None] when it raises [ValueError]. *)
Definition col_int (data : list (string * string)) (k : string) : option Z :=
  match dict_get data k with Some v => py_int_str v | None => Some 0%Z end.

(** One row of [wmic diskdrive get model,size,mediatype]. *)
Definition wmic_disk_row (indices : list (Z * string)) (line : string) : option disk :=
  let disk_data := column_values indices line in
  match col_int disk_data "size" with
  | None => None
  | Some size =>
      Some (mk_disk (col_get disk_data "model" NA)
              (wmic_disk_type (col_get disk_data "mediatype" "")
                 (col_get disk_data "model" ""))
              (fmt_gb (gb size)) NA)
  end.

Fixpoint wmic_disk_rows (indices : list (Z * string)) (lines : list string)
  : list disk :=
  match lines with
  | [] => []
  | line :: rest =>
      if String.eqb (strip line) "" then wmic_disk_rows indices rest
      else match wmic_disk_row indices line with
           | Some d => d :: wmic_disk_rows indices rest
           | None => wmic_disk_rows indices rest
           end
  end.

(** [total_free_space_gb] over the rows of
    [wmic logicaldisk where drivetype=3 get deviceid,freespace,size]. *)
Definition logical_free_total (logical_output : string) : G :=
  let logical_lines := split_lines (strip logical_output) in
  let h := lower (hd "" logical_lines) in
  let logical_indices :=
    sort_pairs [(py_find "deviceid" h, "deviceid");
                (py_find "freespace" h, "freespace");
                (py_find "size" h, "size")] in
  fold_left
    (fun acc logical_line =>
       if String.eqb (strip logical_line) "" then acc
       else match col_int (column_values logical_indices logical_line) "freespace" with
            | Some free => gadd acc (gb free)
            | None => acc
            end)
    (tl logical_lines) gzero.

(** [_get_disk_info_wmic], given the outcomes of its two commands. *)
Definition disk_wmic (is_windows : bool) (model_out logical_out : cmd_outcome)
  : list disk :=
  if negb is_windows then []
  else
    match model_out with
    | CmdOk model_output =>
        let lines := split_lines (strip model_output) in
        let h := lower (hd "" lines) in
        let indices :=
          sort_pairs [(py_find "mediatype" h, "mediatype");
                      (py_find "model" h, "model");
                      (py_find "size" h, "size")] in
        let result := wmic_disk_rows indices (tl lines) in
        match logical_out with
        | CmdOk logical_output =>
            let total := logical_free_total logical_output in
            match result with
            | d0 :: rest =>
                if gpos total
                then mk_disk (dmodel d0) (dtype d0) (dsize d0) (fmt_gb total) :: rest
                else result
            | [] => result
            end
        | _ => result
        end
    | _ => []
    end.

End WmicDisk.

(** A concrete reading of the float arithmetic: gigabytes in hundredths,
    rounded half up. *)
Definition gb_hundredths (b : Z) : Z := ((b * 100 + 536870912) / 1073741824)%Z.

Definition fmt_hundredths (x : Z) : string :=
  let r := (x mod 100)%Z in
  str_of_Z (x / 100) ++ "." ++ (if (r <? 10)%Z then "0" else "") ++ str_of_Z r ++ " GB".

(** ** Bluetooth probes *)

Definition bt_init : dict := [("device_name", NA); ("device_status", NA)].

(** One data row of [_get_bluetooth_info_wmic]: [Some (name, status)] when
    the row names a device (the loop then breaks). *)
Definition bt_wmic_row (name_index status_index : Z) (line : string)
  : option (string * string) :=
  if String.eqb (strip line) "" then None
  else if (0 <=? name_index)%Z && (0 <=? status_index)%Z &&
          (Z.max name_index status_index <? Z.of_nat (String.length line))%Z then
    let ni := Z.to_nat name_index in
    let si := Z.to_nat status_index in
    let ns :=
      if (name_index <? status_index)%Z
      then (strip (slice line ni si), strip (slice line si (String.length line)))
      else (strip (slice line ni (String.length line)), strip (slice line si ni)) in
    if String.eqb (fst ns) "" then None
    else Some (fst ns, if String.eqb (snd ns) "" then "Desconhecido" else snd ns)
  else None.

Fixpoint bt_wmic_rows (name_index status_index : Z) (lines : list string) : dict :=
  match lines with
  | [] => bt_init
  | line :: rest =>
      match bt_wmic_row name_index status_index line with
      | Some (name, status) =>
          dict_set (dict_set bt_init "device_name" name) "device_status" status
      | None => bt_wmic_rows name_index status_index rest
      end
  end.

(** [_get_bluetooth_info_wmic] *)
Definition bt_wmic (is_windows : bool) (o : cmd_outcome) : dict :=
  if negb is_windows then bt_init
  else
    match o with
    | CmdOk output =>
        match split_lines (strip output) with
        | header :: (_ :: _) as rest =>
            let h := lower header in
            bt_wmic_rows (py_find "name" h) (py_find "status" h) rest
        | _ => bt_init
        end
    | _ => bt_init
    end.

(** A [Win32_PnPEntity]: [pnp_has_attrs] is the conjunction of the three
    [hasattr] tests; a value is [None] for a Python [None]. *)
Record pnp := mk_pnp {
  pnp_has_attrs : bool;
  pnp_Name : option string;
  pnp_Status : option string;
  pnp_Description : option string
}.

Fixpoint bt_wmi_loop (devices : list pnp) : dict :=
  match devices with
  | [] => bt_init
  | device :: rest =>
      if pnp_has_attrs device then
        let name := if truthy (pnp_Name device) then opt_str (pnp_Name device) else "" in
        let description :=
          if truthy (pnp_Description device) then opt_str (pnp_Description device) else "" in
        if contains "bluetooth" (lower name) || contains "bluetooth" (lower description) then
          dict_set (dict_set bt_init "device_name" name) "device_status"
            (if truthy (pnp_Status device) then opt_str (pnp_Status device)
             else "Desconhecido")
        else bt_wmi_loop rest
      else bt_wmi_loop rest
  end.

(** [_get_bluetooth_info_wmi]; [devices] is [None] when
    [Win32_PnPEntity()] raises. *)
Definition bt_wmi (client_ok is_windows : bool) (devices : option (list pnp)) : dict :=
  if negb client_ok || negb is_windows then bt_init
  else match devices with Some ds => bt_wmi_loop ds | None => bt_init end.

Definition bt_ps_init : list (string * jval) :=
  [("device_name", JStr NA); ("device_status", JStr NA)].

(** [if status == "OK": "Ativo" else status] *)
Definition bt_status (status : jval) : jval :=
  match status with
  | JStr s => if String.eqb s "OK" then JStr "Ativo" else status
  | _ => status
  end.

Definition bt_json (data : list (string * jval)) : list (string * jval) :=
  let r1 := match member_truthy data "Name" with
            | Some v => dict_set bt_ps_init "device_name" v
            | None => bt_ps_init
            end in
  match member_truthy data "Status" with
  | Some v => dict_set r1 "device_status" (bt_status v)
  | None => r1
  end.

Definition bt_text_line (r : list (string * jval)) (line : string) : list (string * jval) :=
  if contains "Name" line && contains ":" line then
    dict_set r "device_name" (JStr (strip (after_colon line)))
  else if contains "Status" line && contains ":" line then
    let status := strip (after_colon line) in
    dict_set r "device_status"
      (JStr (if String.eqb status "OK" then "Ativo" else status))
  else r.

(** [_get_bluetooth_info_powershell] *)
Definition bt_powershell (is_windows : bool) (o : ps_outcome) : list (string * jval) :=
  if negb is_windows then bt_ps_init
  else
    match o with
    | PsExited rc stdout json =>
        if (rc =? 0)%Z && negb (String.eqb (strip stdout) "") then
          match json with
          | Some (JObject data) => bt_json data
          | Some JNonObject => bt_ps_init
          | None => fold_left bt_text_line (split_lines (strip stdout)) bt_ps_init
          end
        else bt_ps_init
    | _ => bt_ps_init
    end.

(** ** The netsh Wi-Fi probe *)

Definition wifi_init : dict :=
  [("adapter_name", NA); ("adapter_status", NA); ("connected_ssid", NA)].

(** [line.split(":", 1)[1].strip()]: [None] when it raises [IndexError]. *)
Definition colon_value (line : string) : option string :=
  if contains ":" line then Some (strip (after_colon line)) else None.

(** The body of the loop of [_get_wifi_info_netsh] on
    [(adapter_name, status, ssid)]. *)
Definition netsh_line (st : string * string * string) (raw_line : string)
  : option (string * string * string) :=
  let '(adapter_name, status, ssid) := st in
  let line := strip raw_line in
  if starts_with "Name" line then
    option_map (fun v => (v, status, ssid)) (colon_value line)
  else if starts_with "State" line then
    option_map (fun status_raw =>
      (adapter_name,
       if String.eqb status_raw "connected" then "Conectado"
       else if String.eqb status_raw "disconnected" then "Desconectado"
       else status_raw,
       ssid)) (colon_value line)
  else if starts_with "SSID" line then
    option_map (fun v => (adapter_name, status, v)) (colon_value line)
  else Some st.

Fixpoint netsh_lines (st : string * string * string) (lines : list string)
  : option (string * string * string) :=
  match lines with
  | [] => Some st
  | line :: rest =>
      match netsh_line st line with
      | Some st' => netsh_lines st' rest
      | None => None
      end
  end.

(** [_get_wifi_info_netsh] *)
Definition wifi_netsh (is_windows : bool) (o : cmd_outcome) : dict :=
  if negb is_windows then wifi_init
  else
    match o with
    | CmdOk output =>
        match netsh_lines (NA, NA, NA) (split_lines (strip output)) with
        | Some (adapter_name, status, ssid) =>
            if negb (String.eqb adapter_name NA) then
              dict_set (dict_set (dict_set wifi_init "adapter_name" adapter_name)
                          "adapter_status" status)
                "connected_ssid"
                (if String.eqb status "Conectado" then ssid else "Não conectado")
            else wifi_init
        | None => wifi_init
        end
    | _ => wifi_init
    end.

(** ** The display *)

Record monitor := mk_monitor { width : Z; height : Z; is_primary : bool }.

Fixpoint find_primary (monitors : list monitor) : option monitor :=
  match monitors with
  | [] => None
  | m :: rest => if is_primary m then Some m else find_primary rest
  end.

(** [get_display_info]; [monitors] is what [screeninfo.get_monitors()]
    returns ([None] when it raises), [screeninfo_ok] says the module
    imported. *)
Definition get_display_info (screeninfo_ok : bool) (monitors : option (list monitor))
  : dict :=
  let result := [("resolution", NA)] in
  if negb screeninfo_ok then result
  else
    match monitors with
    | None => result
    | Some ms =>
        let primary_monitor :=
          match find_primary ms with
          | Some m => Some m
          | None => match ms with m :: _ => Some m | [] => None end
          end in
        match primary_monitor with
        | Some m =>
            dict_set result "resolution"
              (str_of_Z (width m) ++ "x" ++ str_of_Z (height m))
        | None => result
        end
    end.

(** ** The WMIC RAM probe [_get_ram_info_wmic]

    As for the WMIC disk probe, the floats ([round(c / 1024**3, 2)], the
    running sum, the [> 0] test, [f"{size_gb}"] and [:.2f]) are abstract. *)

Section WmicRam.
Variable G : Type.
Variable gb : Z -> G.
Variable gzero : G.
Variable gadd : G -> G -> G.
Variable gpos : G -> bool.
Variable fmt_repr : G -> string.
Variable fmt_2f : G -> string.

Definition get_or (d : dict) (k default : string) : string :=
  match dict_get d k with Some v => v | None => default end.

(** One non-blank row: [None] when [int(capacity)] raises [ValueError]. *)
Definition ram_wmic_module (indices : list (Z * string)) (line : string)
  : option (G * dict) :=
  let module_data := column_values indices line in
  let capacity :=
    match dict_get module_data "capacity" with
    | Some v => py_int_str v
    | None => Some 0%Z
    end in
  match capacity with
  | None => None
  | Some c =>
      let size_gb := gb c in
      let manufacturer := get_or module_data "manufacturer" NA in
      let manufacturer :=
        if is_generic manufacturer then "Não identificado" else manufacturer in
      let location := get_or module_data "banklabel" NA in
      let location :=
        if String.eqb location NA then get_or module_data "devicelocator" NA
        else location in
      Some (size_gb,
            [("size", fmt_repr size_gb ++ " GB"); ("manufacturer", manufacturer);
             ("location", location);
             ("speed", get_or module_data "speed" "0" ++ " MHz")])
  end.

Fixpoint ram_wmic_rows (indices : list (Z * string)) (lines : list string)
  (total_memory_gb : G) (modules : list dict) : G * list dict :=
  match lines with
  | [] => (total_memory_gb, modules)
  | line :: rest =>
      if String.eqb (strip line) "" then
        ram_wmic_rows indices rest total_memory_gb modules
      else
        match ram_wmic_module indices line with
        | Some (size_gb, m) =>
            ram_wmic_rows indices rest (gadd total_memory_gb size_gb)
              (modules ++ [m])%list
        | None => ram_wmic_rows indices rest total_memory_gb modules
        end
  end.

Definition ram_wmic (is_windows : bool) (o : cmd_outcome) : ram_info :=
  if negb is_windows then ram_init
  else
    match o with
    | CmdOk output =>
        match split_lines (strip output) with
        | [] => ram_init
        | header :: rest =>
            let h := lower header in
            let indices :=
              sort_pairs [(py_find "banklabel" h, "banklabel");
                          (py_find "capacity" h, "capacity");
                          (py_find "devicelocator" h, "devicelocator");
                          (py_find "manufacturer" h, "manufacturer");
                          (py_find "speed" h, "speed")] in
            let tm := ram_wmic_rows indices rest gzero [] in
            mk_ram
              (if gpos (fst tm) then fmt_2f (fst tm) ++ " GB" else NA)
              (match snd tm with
               | [] => NA
               | ms => str_of_Z (Z.of_nat (length ms))
               end)
              (snd tm)
        end
    | _ => ram_init
    end.

End WmicRam.

(** ** The CPU probes *)

(** [s.replace(old, new)] for a non-empty [old]: every non-overlapping
    occurrence, from the left. *)
Fixpoint replace_fuel (fuel : nat) (old new s : string) : string :=
  match fuel with
  | O => s
  | S f =>
      match s with
      | EmptyString => EmptyString
      | String c s' =>
          if starts_with old s then
            new ++ replace_fuel f old new
                      (substring (String.length old)
                         (String.length s - String.length old) s)
          else String c (replace_fuel f old new s')
      end
  end.

Definition py_replace (old new s : string) : string :=
  replace_fuel (S (String.length s)) old new s.

(** The brand and model extraction shared by the four probes, on the
    probe's current [result]. *)
Definition cpu_split (result : dict) (full_name : string) : dict :=
  if contains "Intel" full_name then
    dict_set (dict_set result "brand" "Intel") "model"
      (strip (py_replace "Intel" "" full_name))
  else if contains "AMD" full_name then
    dict_set (dict_set result "brand" "AMD") "model"
      (strip (py_replace "AMD" "" full_name))
  else dict_set result "model" full_name.

(** [_get_cpu_info_cpuinfo]; [info] is [None] when [cpuinfo.get_cpu_info()]
    raises, else the ["brand_raw"] entry ([None] when absent), a string. *)
Definition cpu_cpuinfo (cpuinfo_ok : bool) (info : option (option string)) : dict :=
  if negb cpuinfo_ok then cpu_init
  else
    match info with
    | Some brand_raw =>
        if truthy brand_raw then cpu_split cpu_init (opt_str brand_raw) else cpu_init
    | None => cpu_init
    end.

(** The loop of [_get_cpu_info_wmi] over the [Name] of each
    [Win32_Processor]. *)
Fixpoint cpu_wmi_loop (result : dict) (names : list (option string)) : dict :=
  match names with
  | [] => result
  | name :: rest =>
      let r := cpu_split result (if truthy name then opt_str name else "") in
      if negb (String.eqb (get_or r "model" NA) NA) then r else cpu_wmi_loop r rest
  end.

(** [_get_cpu_info_wmi]; [names] is [None] when [Win32_Processor()] raises. *)
Definition cpu_wmi (client_ok is_windows : bool) (names : option (list (option string)))
  : dict :=
  if negb client_ok || negb is_windows then cpu_init
  else match names with Some ns => cpu_wmi_loop cpu_init ns | None => cpu_init end.

(** [_get_cpu_info_wmic] *)
Definition cpu_wmic (is_windows : bool) (o : cmd_outcome) : dict :=
  if negb is_windows then cpu_init
  else
    match o with
    | CmdOk output =>
        match split_lines (strip output) with
        | _ :: line1 :: _ => cpu_split cpu_init (strip line1)
        | _ => cpu_init
        end
    | _ => cpu_init
    end.

(** [_get_cpu_info_registry] *)
Definition cpu_registry (is_windows winreg_ok : bool) (o : cmd_outcome) : dict :=
  if negb is_windows || negb winreg_ok then cpu_init
  else
    match o with
    | CmdOk output =>
        fold_left
          (fun r line =>
             if contains "ProcessorNameString" line && contains "REG_SZ" line then
               match split_sep "REG_SZ" line with
               | _ :: part1 :: _ => cpu_split r (strip part1)
               | _ => r
               end
             else r)
          (split_lines (strip output)) cpu_init
    | _ => cpu_init
    end.

(** ** The report ([src/core/report_generator.py]) *)

(** A test's [result] dict, read only through [result.get('success', False)]. *)
Definition test_result := list (string * jval).

Record report_generator := mk_rg {
  hardware_info : list (string * dict);
  identification : dict;
  test_results : list (string * test_result);
  test_details : list (string * string)
}.

(** [ReportGenerator()] *)
Definition rg_init : report_generator := mk_rg [] [] [] [].

Definition set_hardware_info (g : report_generator) (hw : list (string * dict))
  : report_generator :=
  mk_rg hw (identification g) (test_results g) (test_details g).

Definition set_identification (g : report_generator) (id : dict) : report_generator :=
  mk_rg (hardware_info g) id (test_results g) (test_details g).

Definition add_test_result (g : report_generator) (test_name : string)
  (result : test_result) (formatted_result : string) : report_generator :=
  mk_rg (hardware_info g) (identification g)
    (dict_set (test_results g) test_name result)
    (dict_set (test_details g) test_name formatted_result).

(** A run of [add_test_result] calls, as the GUI makes them. *)
Definition add_tests (g : report_generator)
  (runs : list (string * test_result * string)) : report_generator :=
  fold_left (fun g r => let '(n, res, f) := r in add_test_result g n res f) runs g.

Fixpoint repeat_char (n : nat) (c : ascii) : string :=
  match n with O => EmptyString | S k => String c (repeat_char k c) end.

(** ["\n".join(lines)] *)
Fixpoint join_lines (lines : list string) : string :=
  match lines with
  | [] => ""
  | [l] => l
  | l :: rest => l ++ String nl (join_lines rest)
  end.

Definition str_nat (n : nat) : string := str_of_Z (Z.of_nat n).

(** [result.get('success', False)] is truthy. *)
Definition test_success (result : test_result) : bool :=
  match dict_get result "success" with Some v => jtruthy v | None => false end.

Definition successful_tests (results : list (string * test_result)) : nat :=
  length (filter (fun kv => test_success (snd kv)) results).

(** One [if '<key>' in self.hardware_info:] block. *)
Definition hw_block (hw : list (string * dict)) (key title : string)
  (fields : list (string * string)) : list string :=
  match dict_get hw key with
  | Some d =>
      (title :: map (fun lf => ("  " ++ fst lf ++ ": " ++ get_or d (snd lf) NA)%string) fields
        ++ [""])%list
  | None => []
  end.

Definition hardware_lines (hw : list (string * dict)) : list string :=
  (hw_block hw "motherboard" "Placa-Mãe:"
     [("Fabricante", "manufacturer"); ("Modelo", "model");
      ("Número de Série", "serial_number")] ++
   hw_block hw "cpu" "Processador:" [("Marca", "brand"); ("Modelo", "model")] ++
   hw_block hw "ram" "Memória RAM:" [("Total", "total"); ("Slots Usados", "slots_used")] ++
   hw_block hw "display" "Display:" [("Resolução", "resolution")] ++
   hw_block hw "tpm" "TPM:"
     [("Versão", "version"); ("Status", "status"); ("Fabricante", "manufacturer")] ++
   hw_block hw "bluetooth" "Bluetooth:"
     [("Dispositivo", "device_name"); ("Status", "device_status")] ++
   hw_block hw "wifi" "Wi-Fi:"
     [("Adaptador", "adapter_name"); ("Status", "adapter_status");
      ("SSID", "connected_ssid")])%list.

(** [_generate_report_content], as its list of lines.  The [platform]
    strings and the [:.2f] rendering of the success rate are parameters. *)
Section ReportContent.
Variables system release version machine node : string.
Variable fmt_rate : nat -> nat -> string.

Definition report_lines (g : report_generator) : list string :=
  let eq80 := repeat_char 80 "=" in
  let dash80 := repeat_char 80 "-" in
  ([eq80; "RELATÓRIO DE DIAGNÓSTICO DE HARDWARE"; eq80; ""] ++
   [dash80; "INFORMAÇÕES DE IDENTIFICAÇÃO"; dash80] ++
   match identification g with
   | [] => ["Informações de identificação não disponíveis"]
   | id => [("Data e Hora: " ++ get_or id "date_time" NA)%string;
            ("Nome do Técnico: " ++ get_or id "technician_name" NA)%string;
            ("ID da Bancada: " ++ get_or id "workbench_id" NA)%string]
   end ++ [""] ++
   [dash80; "INFORMAÇÕES DO SISTEMA"; dash80;
    ("Sistema Operacional: " ++ system ++ " " ++ release ++ " " ++ version)%string;
    ("Arquitetura: " ++ machine)%string; ("Nome do Computador: " ++ node)%string; ""] ++
   [dash80; "INFORMAÇÕES DE HARDWARE"; dash80] ++
   match hardware_info g with
   | [] => ["Informações de hardware não disponíveis"; ""]
   | hw => hardware_lines hw
   end ++
   [dash80; "RESULTADOS DOS TESTES"; dash80] ++
   match test_details g with
   | [] => ["Nenhum teste foi executado"; ""]
   | td => flat_map (fun kv => [snd kv; ""]) td
   end ++
   [dash80; "RESUMO DOS TESTES"; dash80] ++
   match test_results g with
   | [] => ["Nenhum teste foi executado"]
   | tr =>
       let total_tests := length tr in
       let successful := successful_tests tr in
       [("Total de Testes: " ++ str_nat total_tests)%string;
        ("Testes com Sucesso: " ++ str_nat successful)%string;
        ("Testes com Falha: " ++
           str_of_Z (Z.of_nat total_tests - Z.of_nat successful))%string;
        ("Taxa de Sucesso: " ++ fmt_rate successful total_tests ++ "%")%string]
   end ++
   [""; eq80; "FIM DO RELATÓRIO"; eq80])%list.

Definition report_content (g : report_generator) : string :=
  join_lines (report_lines g).

End ReportContent.

(** ** The PowerShell GPU probe [_get_gpu_info_powershell] *)

(** What [json.loads(stdout)] returns: a JSON array (its elements) or any
    other value, which the probe wraps as [[data]]. *)
Inductive json_top :=
| JArray (items : list json_data)
| JScalar (item : json_data).

Inductive ps_list_outcome :=
| PsListExited (returncode : Z) (stdout : string) (json : option json_top)
| PsListLaunchError
| PsListTimeout
| PsListUndecodable.

(** [for gpu in data: model = gpu.get("Name", "").strip()]: a non-object
    element ([.get] missing) or a [Name] that is not a string ([.strip]
    missing) raises, and the probe returns the GPUs gathered so far. *)
Fixpoint gpu_ps_items (items : list json_data) (result : list string) : list string :=
  match items with
  | [] => result
  | JNonObject :: _ => result
  | JObject gpu :: rest =>
      match dict_get gpu "Name" with
      | None => gpu_ps_items rest result
      | Some (JStr name) =>
          let model := strip name in
          gpu_ps_items rest
            (if String.eqb model "" then result else (result ++ [model])%list)
      | Some _ => result
      end
  end.

Definition gpu_powershell (is_windows : bool) (o : ps_list_outcome) : list string :=
  if negb is_windows then []
  else
    match o with
    | PsListExited rc stdout json =>
        if (rc =? 0)%Z && negb (String.eqb (strip stdout) "") then
          match json with
          | Some (JArray items) => gpu_ps_items items []
          | Some (JScalar item) => gpu_ps_items [item] []
          | None => []
          end
        else []
    | _ => []
    end.

(** ** The WMI and TPM Tool probes of the TPM *)

(** A [Win32_Tpm] instance; each attribute is [None] when it is missing or
    [None] (or, for the strings, empty). *)
Record tpm_instance := mk_tpm {
  SpecVersion : option string;
  IsEnabled_InitialValue : option bool;
  IsActivated_InitialValue : option bool;
  ManufacturerIdTxt : option string;
  ManufacturerVersion : option string
}.

Definition tpm_wmi_instance (tpm : tpm_instance) : dict :=
  let r1 := match SpecVersion tpm with
            | Some v => if truthy (Some v) then dict_set tpm_init "version" (strip v)
                        else tpm_init
            | None => tpm_init
            end in
  let r2 := match IsEnabled_InitialValue tpm with
            | Some b => dict_set r1 "status" (if b then "Habilitado" else "Desabilitado")
            | None =>
                match IsActivated_InitialValue tpm with
                | Some b => dict_set r1 "status" (if b then "Ativo" else "Inativo")
                | None => r1
                end
            end in
  if truthy (ManufacturerIdTxt tpm) then
    dict_set r2 "manufacturer" (strip (opt_str (ManufacturerIdTxt tpm)))
  else if truthy (ManufacturerVersion tpm) then
    dict_set r2 "manufacturer"
      (match split_sep "," (opt_str (ManufacturerVersion tpm)) with
       | first :: _ => strip first
       | [] => ""
       end)
  else r2.

(** [_get_tpm_info_wmi]; [tpms] is [None] when [Win32_Tpm()] raises. *)
Definition tpm_wmi (client_ok is_windows : bool) (tpms : option (list tpm_instance))
  : dict :=
  if negb client_ok || negb is_windows then tpm_init
  else
    match tpms with
    | Some (tpm :: _) => tpm_wmi_instance tpm
    | _ => tpm_init
    end.

Definition tpmtool_line (r : dict) (line : string) : dict :=
  if contains "Spec Version:" line then
    dict_set r "version" (strip (after_colon line))
  else if contains "TPM Enabled:" line then
    let value := lower (strip (after_colon line)) in
    dict_set r "status"
      (if String.eqb value "yes" || String.eqb value "true" then "Habilitado"
       else "Desabilitado")
  else if contains "Manufacturer:" line then
    dict_set r "manufacturer" (strip (after_colon line))
  else r.

(** [_get_tpm_info_tpmtool] *)
Definition tpm_tpmtool (is_windows : bool) (o : cmd_outcome) : dict :=
  if negb is_windows then tpm_init
  else
    match o with
    | CmdOk output => fold_left tpmtool_line (split_lines (strip output)) tpm_init
    | _ => tpm_init
    end.

(** ** The TPM, Bluetooth and Wi-Fi collectors *)

Definition get_tpm_info (outcomes : list (option dict)) : dict :=
  collect tpm_init outcomes.

Definition get_bluetooth_info (outcomes : list (option dict)) : dict :=
  collect bt_init outcomes.

Definition get_wifi_info (outcomes : list (option dict)) : dict :=
  collect wifi_init outcomes.

(** ** The PowerShell CIM, WMI and psutil RAM probes *)

(** A [Win32_PhysicalMemory]; an attribute is [None] when it is missing or
    [None]. *)
Record physical_memory := mk_physmem {
  pm_Capacity : option string;
  pm_Manufacturer : option string;
  pm_BankLabel : option string;
  pm_DeviceLocator : option string;
  pm_Speed : option Z
}.

Section RamProbes.
Variable G : Type.
(** [round(c / (1024**3), 2)] *)
Variable gb : Z -> G.
Variable gzero : G.
Variable gadd : G -> G -> G.
(** [x > 0] *)
Variable gpos : G -> bool.
(** [f"{x}"] and [f"{x:.2f}"] *)
Variable fmt_repr : G -> string.
Variable fmt_2f : G -> string.

(** [for module in data: total_memory_gb += size_gb; modules.append(...)],
    where [body] gives [size_gb] and the module dict, or [None] when it
    raises (the probe then returns its initial record). *)
Fixpoint sum_modules {A : Type} (body : A -> option (G * dict)) (items : list A)
  (total_memory_gb : G) (modules : list dict) : option (G * list dict) :=
  match items with
  | [] => Some (total_memory_gb, modules)
  | item :: rest =>
      match body item with
      | Some (size_gb, m) =>
          sum_modules body rest (gadd total_memory_gb size_gb) (modules ++ [m])%list
      | None => None
      end
  end.

(** [if total_memory_gb > 0: ...; if modules: ...] *)
Definition ram_result (tm : G * list dict) : ram_info :=
  mk_ram (if gpos (fst tm) then fmt_2f (fst tm) ++ " GB" else NA)
    (match snd tm with
     | [] => NA
     | ms => str_of_Z (Z.of_nat (length ms))
     end)
    (snd tm).

(** One element of the CIM data; [.get] on a non-object raises. *)
Definition cim_item (item : json_data) : option (G * dict) :=
  match item with
  | JNonObject => None
  | JObject module =>
      match py_int (jget module "Capacity" (JInt 0)) with
      | None => None
      | Some capacity =>
          option_map (fun m => (gb capacity, m))
            (cim_module (fun c => fmt_repr (gb c) ++ " GB") module)
      end
  end.

(** [_get_ram_info_powershell_cim] *)
Definition ram_cim (is_windows : bool) (o : ps_list_outcome) : ram_info :=
  if negb is_windows then ram_init
  else
    match o with
    | PsListExited rc stdout json =>
        if (rc =? 0)%Z && negb (String.eqb (strip stdout) "") then
          match json with
          | Some top =>
              let data := match top with JArray items => items | JScalar item => [item] end in
              match sum_modules cim_item data gzero [] with
              | Some tm => ram_result tm
              | None => ram_init
              end
          | None => ram_init
          end
        else ram_init
    | _ => ram_init
    end.

(** One [Win32_PhysicalMemory] in [_get_ram_info_wmi]; [int(memory.Capacity)]
    may raise. *)
Definition wmi_memory (memory : physical_memory) : option (G * dict) :=
  let size :=
    if truthy (pm_Capacity memory) then
      option_map (fun c => (gb c, fmt_repr (gb c)))
        (py_int_str (opt_str (pm_Capacity memory)))
    else Some (gzero, "0") in
  match size with
  | None => None
  | Some (size_gb, size_text) =>
      let manufacturer :=
        if truthy (pm_Manufacturer memory) then opt_str (pm_Manufacturer memory)
        else NA in
      let manufacturer :=
        if is_generic manufacturer then "Não identificado" else manufacturer in
      Some (size_gb,
            [("size", size_text ++ " GB"); ("manufacturer", manufacturer);
             ("location", wmi_module_location (pm_BankLabel memory)
                            (pm_DeviceLocator memory));
             ("speed", match pm_Speed memory with
                       | Some s => str_of_Z s
                       | None => "0"
                       end ++ " MHz")])
  end.

(** [_get_ram_info_wmi]; [memories] is [None] when [Win32_PhysicalMemory()]
    raises. *)
Definition ram_wmi (client_ok is_windows : bool)
  (memories : option (list physical_memory)) : ram_info :=
  if negb client_ok || negb is_windows then ram_init
  else
    match memories with
    | Some ms =>
        match sum_modules wmi_memory ms gzero [] with
        | Some tm => ram_result tm
        | None => ram_init
        end
    | None => ram_init
    end.

(** [_get_ram_info_psutil]; [memory_total] is [psutil.virtual_memory().total]
    ([None] when it raises). *)
Definition ram_psutil (psutil_ok : bool) (memory_total : option Z) : ram_info :=
  if negb psutil_ok then ram_init
  else
    match memory_total with
    | Some t => mk_ram (fmt_2f (gb t) ++ " GB") NA []
    | None => ram_init
    end.

End RamProbes.

(** ** The WMI and psutil disk probes *)

(** A [Win32_DiskDrive]; an attribute is [None] when it is missing or
    [None]. *)
Record disk_drive := mk_drive {
  dd_Size : option string;
  dd_MediaType : option string;
  dd_Model : option string;
  dd_Index : Z
}.

Record disk_partition := mk_partition { dp_DiskIndex : Z; dp_DeviceID : string }.

(** A [Win32_LogicalDisk] of drive type 3, with the [DeviceID] of each
    partition [associators(...)] gives ([None] when that call raises). *)
Record logical_disk := mk_logical {
  ld_FreeSpace : option string;
  ld_Size : option string;
  ld_partitions : option (list string)
}.

Section DiskProbes.
Variable G : Type.
Variable gb : Z -> G.
Variable gzero : G.
Variable gadd : G -> G -> G.
Variable gpos : G -> bool.
(** [f"{x:.2f} GB"] *)
Variable fmt_gb : G -> string.

(** [round(int(o.a) / (1024**3), 2) if hasattr(o, a) and o.a else 0];
    [None] when [int] raises. *)
Definition wmi_gb (attr : option string) : option G :=
  if truthy attr then option_map gb (py_int_str (opt_str attr)) else Some gzero.

(** The loop filling [logical_map]; [None] when it raises. *)
Fixpoint logical_map_of (logicals : list logical_disk) (m : list (string * G))
  : option (list (string * G)) :=
  match logicals with
  | [] => Some m
  | logical :: rest =>
      match ld_partitions logical with
      | None => None
      | Some [] => logical_map_of rest m
      | Some refs =>
          match wmi_gb (ld_FreeSpace logical), wmi_gb (ld_Size logical) with
          | Some free, Some _ =>
              logical_map_of rest (fold_left (fun m' pid => dict_set m' pid free) refs m)
          | _, _ => None
          end
      end
  end.

(** [partition_map[disk_index]]: the partitions of the disk, in order. *)
Definition partition_ids (partitions : list disk_partition) (disk_index : Z)
  : list string :=
  map dp_DeviceID (filter (fun p => (dp_DiskIndex p =? disk_index)%Z) partitions).

Definition free_total (partitions : list disk_partition) (logical_map : list (string * G))
  (disk_index : Z) : G :=
  fold_left
    (fun acc pid =>
       match dict_get logical_map pid with Some free => gadd acc free | None => acc end)
    (partition_ids partitions disk_index) gzero.

(** [for disk in physical_disks]: a [Size] [int] cannot read raises, and
    the probe returns the disks appended so far. *)
Fixpoint wmi_disks (partitions : list disk_partition) (logical_map : list (string * G))
  (drives : list disk_drive) (result : list disk) : list disk :=
  match drives with
  | [] => result
  | d :: rest =>
      match wmi_gb (dd_Size d) with
      | None => result
      | Some size_gb =>
          let total := free_total partitions logical_map (dd_Index d) in
          wmi_disks partitions logical_map rest
            (result ++
             [mk_disk (if truthy (dd_Model d) then strip (opt_str (dd_Model d)) else NA)
                (wmi_disk_type (dd_MediaType d) (dd_Model d))
                (fmt_gb size_gb)
                (if gpos total then fmt_gb total else NA)])%list
      end
  end.

(** [_get_disk_info_wmi]; each query is [None] when it raises. *)
Definition disk_wmi (client_ok is_windows : bool) (drives : option (list disk_drive))
  (logicals : option (list logical_disk)) (partitions : option (list disk_partition))
  : list disk :=
  if negb client_ok || negb is_windows then []
  else
    match drives, logicals, partitions with
    | Some ds, Some ls, Some ps =>
        match logical_map_of ls [] with
        | Some lm => wmi_disks ps lm ds []
        | None => []
        end
    | _, _, _ => []
    end.

(** [_get_disk_info_psutil]; [partitions] is [psutil.disk_partitions()]
    ([None] when it raises), each with its device and the total and free
    bytes of [disk_usage] ([None] when it raises: the partition is
    skipped). *)
Definition disk_psutil (psutil_ok : bool)
  (partitions : option (list (string * option (Z * Z)))) : list disk :=
  if negb psutil_ok then []
  else
    match partitions with
    | Some ps =>
        flat_map
          (fun p => match snd p with
                    | Some (t, f) =>
                        [mk_disk ("Partição " ++ fst p) NA (fmt_gb (gb t)) (fmt_gb (gb f))]
                    | None => []
                    end) ps
    | None => []
    end.

End DiskProbes.

(** ** The WMI and WMIC GPU probes *)

(** [_get_gpu_info_wmi]; [names] is [None] when [Win32_VideoController()]
    raises, else the [Name] of each controller. *)
Definition gpu_wmi (client_ok is_windows : bool) (names : option (list (option string)))
  : list string :=
  if negb client_ok || negb is_windows then []
  else
    match names with
    | Some ns => map (fun name => if truthy name then strip (opt_str name) else NA) ns
    | None => []
    end.

(** [_get_gpu_info_wmic] *)
Definition gpu_wmic (is_windows : bool) (o : cmd_outcome) : list string :=
  if negb is_windows then []
  else
    match o with
    | CmdOk output =>
        filter (fun model => negb (String.eqb model ""))
          (map strip (tl (split_lines (strip output))))
    | _ => []
    end.

(** ** The WMI and PowerShell Wi-Fi probes *)

(** A [Win32_NetworkAdapterConfiguration]: [nc_Description] is [None] when
    the attribute is missing, [Some None] when it is [None]. *)
Record net_config := mk_netcfg {
  nc_Description : option (option string);
  nc_Index : Z
}.

(** A [Win32_NetworkAdapter]: [na_NetConnectionStatus] is [None] when the
    attribute is missing, [Some None] when it is [None]; [na_GUID] is [None]
    when reading it raises. *)
Record net_adapter := mk_netadapter {
  na_NetConnectionStatus : option (option Z);
  na_GUID : option string
}.

Definition wifi_status_names : list string :=
  ["Desconectado"; "Conectando"; "Conectado"; "Desconectando";
   "Hardware não presente"; "Hardware desabilitado"; "Erro de hardware";
   "Mídia desconectada"; "Autenticando"; "Autenticação bem-sucedida";
   "Falha na autenticação"; "Endereço inválido"; "Credenciais necessárias"].

(** [status_map.get(status, "Desconhecido")] *)
Definition wifi_status (status : option Z) : string :=
  match status with
  | Some n =>
      if (0 <=? n)%Z && (n <=? 12)%Z then nth (Z.to_nat n) wifi_status_names "Desconhecido"
      else "Desconhecido"
  | None => "Desconhecido"
  end.

(** The loop of [_get_wifi_info_wmi]: [adapters i] is
    [Win32_NetworkAdapter(Index=i)] ([None] when it raises), [ssid_query g]
    the [SSID] of each row of the [MSNdis_80211_ServiceSetIdentifier] query
    for the GUID [g] ([None] when the query or the read raises). *)
Fixpoint wifi_wmi_loop (adapters : Z -> option (list net_adapter))
  (ssid_query : string -> option (list string)) (configs : list net_config) : dict :=
  match configs with
  | [] => wifi_init
  | c :: rest =>
      match nc_Description c with
      | None => wifi_wmi_loop adapters ssid_query rest
      | Some None => wifi_init
      | Some (Some description) =>
          if contains "wireless" (lower description) then
            let r1 := dict_set wifi_init "adapter_name" (strip description) in
            match adapters (nc_Index c) with
            | None => r1
            | Some physical =>
                let r2 :=
                  match physical with
                  | p0 :: _ =>
                      match na_NetConnectionStatus p0 with
                      | Some s => dict_set r1 "adapter_status" (wifi_status s)
                      | None => r1
                      end
                  | [] => r1
                  end in
                match physical with
                | p0 :: _ =>
                    match na_GUID p0 with
                    | Some guid =>
                        match ssid_query guid with
                        | Some (ssid :: _) => dict_set r2 "connected_ssid" ssid
                        | _ => r2
                        end
                    | None => r2
                    end
                | [] => r2
                end
            end
          else wifi_wmi_loop adapters ssid_query rest
      end
  end.

(** [_get_wifi_info_wmi]; [configs] is [None] when
    [Win32_NetworkAdapterConfiguration(IPEnabled=True)] raises. *)
Definition wifi_wmi (client_ok is_windows : bool) (configs : option (list net_config))
  (adapters : Z -> option (list net_adapter))
  (ssid_query : string -> option (list string)) : dict :=
  if negb client_ok || negb is_windows then wifi_init
  else
    match configs with
    | Some cs => wifi_wmi_loop adapters ssid_query cs
    | None => wifi_init
    end.

(** What [Popen(...).communicate(timeout=10)] does, with the return code and
    the decoded stdout of an exit. *)
Inductive proc_outcome :=
| ProcExited (returncode : Z) (stdout : string)
| ProcLaunchError
| ProcTimeout
| ProcUndecodable.

(** A value [json.loads] returns, as [_get_wifi_info_powershell] reads it: an
    object, an array, a string, or a number, boolean or [null] (on which
    [in] raises [TypeError]). *)
Inductive json_value :=
| JVObject (members : list (string * jval))
| JVArray (items : list jval)
| JVString (s : string)
| JVOther.

Definition wifi_ps_init : list (string * jval) :=
  [("adapter_name", JStr NA); ("adapter_status", JStr NA); ("connected_ssid", JStr NA)].

(** [key in adapter_data and adapter_data[key]]: [None] when it raises
    ([in] on a number, or [[key]] on an array or a string that holds the
    key), else the member when the test holds. *)
Definition json_member (data : json_value) (key : string) : option (option jval) :=
  match data with
  | JVObject members =>
      Some (match dict_get members key with
            | Some v => if jtruthy v then Some v else None
            | None => None
            end)
  | JVArray items =>
      if existsb (fun v => match v with JStr s => String.eqb s key | _ => false end) items
      then None else Some None
  | JVString s => if contains key s then None else Some None
  | JVOther => None
  end.

(** The [try] body after [json.loads(adapter_json)]. *)
Definition wifi_ps_data (data : json_value) (ssid : string) : list (string * jval) :=
  let name :=
    match json_member data "InterfaceDescription" with
    | Some None => json_member data "Name"
    | other => other
    end in
  match name with
  | None => wifi_ps_init
  | Some n =>
      let r1 := match n with
                | Some v => dict_set wifi_ps_init "adapter_name" v
                | None => wifi_ps_init
                end in
      match json_member data "Status" with
      | None => r1
      | Some st =>
          let r2 := match st with
                    | Some v => dict_set r1 "adapter_status" v
                    | None => r1
                    end in
          let up := match dict_get r2 "adapter_status" with
                    | Some (JStr s) => String.eqb s "Up" || String.eqb s "Connected"
                    | _ => false
                    end in
          dict_set r2 "connected_ssid"
            (JStr (if up then (if String.eqb ssid "" then NA else ssid)
                   else "Não conectado"))
      end
  end.

Section WifiPowershell.
(** [json.loads]: [None] when it raises [JSONDecodeError]. *)
Variable json_loads : string -> option json_value.

(** [_get_wifi_info_powershell] *)
Definition wifi_powershell (is_windows : bool) (o : proc_outcome) : list (string * jval) :=
  if negb is_windows then wifi_ps_init
  else
    match o with
    | ProcExited rc stdout =>
        if (rc =? 0)%Z && negb (String.eqb (strip stdout) "") then
          let parts := split_lines (strip stdout) in
          let ssid := match parts with _ :: s :: _ => s | _ => NA end in
          match json_loads (hd "" parts) with
          | Some data => wifi_ps_data data ssid
          | None => wifi_ps_init
          end
        else wifi_ps_init
    | _ => wifi_ps_init
    end.

End WifiPowershell.

(** ** Probe failures *)

(** [subprocess.check_output] raised: missing command, non-zero exit,
    timeout or undecodable output. *)
Definition cmd_failed (o : cmd_outcome) : Prop :=
  match o with CmdOk _ => False | _ => True end.

(** The [Popen] probes: the launch fails, the call times out, the output
    is undecodable, or the process exits non-zero. *)
Definition ps_failed (o : ps_outcome) : Prop :=
  match o with PsExited rc _ _ => rc <> 0%Z | _ => True end.

Definition proc_failed (o : proc_outcome) : Prop :=
  match o with ProcExited rc _ => rc <> 0%Z | _ => True end.

(** For the probes that only read JSON, a [JSONDecodeError] too. *)
Definition ps_list_failed (o : ps_list_outcome) : Prop :=
  match o with PsListExited rc _ json => rc <> 0%Z \/ json = None | _ => True end.

(** Discharges [NoDup] of a concrete list of distinct keys. *)
Ltac nodup_keys :=
  simpl; repeat constructor; simpl; intuition discriminate.

(** ** Facts about the dict and the merge loop *)

Lemma dict_get_set (d : dict) (k k' v : string) :
  dict_get (dict_set d k v) k' = if String.eqb k k' then Some v else dict_get d k'.
Proof.
  induction d as [|[k0 v0] d IH]; simpl.
  - rewrite String.eqb_sym. reflexivity.
  - destruct (String.eqb k0 k) eqn:E0.
    + apply String.eqb_eq in E0; subst k0. simpl.
      destruct (String.eqb k k'); reflexivity.
    + simpl. rewrite IH.
      destruct (String.eqb k0 k') eqn:E1; [|reflexivity].
      apply String.eqb_eq in E1; subst k0.
      rewrite String.eqb_sym, E0. reflexivity.
Qed.

Lemma merge_probe_cons (r : dict) (kv : string * string) (p : dict) :
  merge_probe r (kv :: p) =
  merge_probe (if valid (snd kv) then dict_set r (fst kv) (snd kv) else r) p.
Proof. reflexivity. Qed.

(** The value a merged record holds for [k]: the probe's value when it is
    valid, the previous one otherwise. *)
Lemma merge_probe_get (r p : dict) (k : string) :
  NoDup (map fst p) ->
  dict_get (merge_probe r p) k =
  match dict_get p k with
  | Some v => if valid v then Some v else dict_get r k
  | None => dict_get r k
  end.
Proof.
  revert r. induction p as [|[k0 v0] p IH]; intros r Hnd; [reflexivity|].
  simpl in Hnd. inversion Hnd as [|? ? Hnin Hnd']; subst.
  rewrite merge_probe_cons, IH by exact Hnd'. simpl.
  destruct (String.eqb k0 k) eqn:E.
  - apply String.eqb_eq in E; subst k0.
    assert (Hn : dict_get p k = None).
    { clear -Hnin. induction p as [|[k1 v1] p IHp]; [reflexivity|].
      simpl in *. destruct (String.eqb k1 k) eqn:E1.
      - apply String.eqb_eq in E1. subst. tauto.
      - apply IHp. tauto. }
    rewrite Hn. destruct (valid v0); [|reflexivity].
    rewrite dict_get_set, String.eqb_refl. reflexivity.
  - destruct (valid v0); [|reflexivity].
    rewrite dict_get_set, E. reflexivity.
Qed.

Lemma all_resolved_NA (r : dict) (k : string) :
  dict_get r k = Some NA -> all_resolved r = false.
Proof.
  induction r as [|[k0 v0] r IH]; simpl; [discriminate|].
  destruct (String.eqb k0 k).
  - intros H; injection H as ->. reflexivity.
  - intros H. rewrite IH by exact H. apply andb_false_r.
Qed.

Lemma collect_some_cons (r p : dict) (rest : list (option dict)) :
  p <> [] ->
  collect r (Some p :: rest) =
  (let r' := merge_probe r p in if all_resolved r' then r' else collect r' rest).
Proof. destruct p; [congruence|reflexivity]. Qed.

Lemma collect_single (r p : dict) : collect r [Some p] = merge_probe r p.
Proof.
  destruct p as [|kv p]; [reflexivity|].
  simpl. destruct (all_resolved _); reflexivity.
Qed.

Lemma dict_get_nonempty (p : dict) (k v : string) :
  dict_get p k = Some v -> p <> [].
Proof. destruct p; simpl; congruence. Qed.

(** ** C1: the tie-break of the scalar merge *)

(** C1 (counterexample).  The claim says the first probe's valid value is
    kept.  Two motherboard probes both give a valid manufacturer; the first
    leaves the model unresolved, so the loop goes on and the second probe's
    manufacturer replaces the first one's. *)
Lemma C1_later_valid_value_overrides :
  let r := get_motherboard_info
             [Some [("manufacturer", "ASUSTeK COMPUTER INC."); ("model", NA);
                    ("serial_number", NA)];
              Some [("manufacturer", "ASUS"); ("model", "PRIME B450M-A");
                    ("serial_number", NA)]] in
  dict_get r "manufacturer" = Some "ASUS" /\
  dict_get r "manufacturer" <> Some "ASUSTeK COMPUTER INC.".
Proof. split; vm_compute; [reflexivity | discriminate]. Qed.

Lemma ram_collect_two (a b : ram_info) :
  get_ram_info [Some a; Some b] =
  (let r := ram_merge ram_init a in
   if ram_complete r then r else ram_merge r b).
Proof.
  unfold get_ram_info. simpl.
  destruct (ram_complete (ram_merge ram_init a)); [reflexivity|].
  destruct (ram_complete _); reflexivity.
Qed.

(** C1 (amended).  Every probe that runs overwrites each field for which it
    returns a valid value, whatever the field held before; a probe that
    raised changes nothing; the only guard is the early stop: once every
    field is resolved after a probe, no later probe runs.  So a second
    probe's valid value replaces the first one's whenever the first left
    a field unresolved.  The RAM collector does the same with [total] and
    [slots_used], its early stop also asking for a non-empty module list. *)
Theorem C1_merge_overwrites_until_resolved :
  (forall (r p : dict) (k : string),
      NoDup (map fst p) ->
      dict_get (merge_probe r p) k =
      match dict_get p k with
      | Some v => if valid v then Some v else dict_get r k
      | None => dict_get r k
      end) /\
  (forall (r p : dict) (rest : list (option dict)),
      p <> [] ->
      collect r (Some p :: rest) =
      (if all_resolved (merge_probe r p) then merge_probe r p
       else collect (merge_probe r p) rest)) /\
  (forall (r : dict) (rest : list (option dict)),
      collect r (None :: rest) = collect r rest) /\
  (forall (init a b : dict) (k v : string),
      a <> [] -> all_resolved (merge_probe init a) = false ->
      NoDup (map fst b) -> dict_get b k = Some v -> valid v = true ->
      dict_get (collect init [Some a; Some b]) k = Some v) /\
  (forall r p : ram_info,
      total (ram_merge r p) = (if valid (total p) then total p else total r) /\
      slots_used (ram_merge r p) =
        (if valid (slots_used p) then slots_used p else slots_used r)) /\
  (forall (r p : ram_info) (rest : list (option ram_info)),
      ram_collect r (Some p :: rest) =
      (if ram_complete (ram_merge r p) then ram_merge r p
       else ram_collect (ram_merge r p) rest)) /\
  (forall (r : ram_info) (rest : list (option ram_info)),
      ram_collect r (None :: rest) = ram_collect r rest) /\
  (forall a b : ram_info,
      ram_complete (ram_merge ram_init a) = false ->
      (valid (total b) = true -> total (get_ram_info [Some a; Some b]) = total b) /\
      (valid (slots_used b) = true ->
       slots_used (get_ram_info [Some a; Some b]) = slots_used b)).
Proof.
  split; [exact merge_probe_get|split; [|split; [|split; [|split; [|split; [|split]]]]]].
  - intros r p rest Hp. rewrite collect_some_cons by exact Hp. reflexivity.
  - reflexivity.
  - intros init a b k v Ha Hr Hnb Hk Hv.
    rewrite collect_some_cons by exact Ha. cbv zeta. rewrite Hr.
    rewrite collect_single. rewrite merge_probe_get by exact Hnb.
    rewrite Hk, Hv. reflexivity.
  - intros r p. split; reflexivity.
  - reflexivity.
  - reflexivity.
  - intros a b Hc. rewrite ram_collect_two. cbv zeta. rewrite Hc.
    split; intros Hv; simpl; rewrite Hv; reflexivity.
Qed.

Lemma C1_merge_overwrites_until_resolved_witness :
  NoDup (map fst [("model", "X")]) /\ ([("model", "X")] : dict) <> [] /\
  dict_get (merge_probe cpu_init [("model", "X")]) "model" = Some "X" /\
  ram_complete (ram_merge ram_init (mk_ram "8.00 GB" NA [])) = false /\
  valid "7.89 GB" = true /\
  total (get_ram_info [Some (mk_ram "8.00 GB" NA []);
                       Some (mk_ram "7.89 GB" "2" [[("size", "4.0 GB")]])]) = "7.89 GB".
Proof.
  destruct C1_merge_overwrites_until_resolved as [H [_ [_ [_ [_ [_ [_ Hram]]]]]]].
  split; [repeat constructor; simpl; tauto|split; [discriminate|]].
  split; [rewrite H by (repeat constructor; simpl; tauto); reflexivity|].
  split; [reflexivity|split; [reflexivity|]].
  apply (Hram (mk_ram "8.00 GB" NA []) (mk_ram "7.89 GB" "2" [[("size", "4.0 GB")]]));
    reflexivity.
Defined.

Lemma valid_false_nonempty (v : string) :
  valid v = false -> v <> "" -> v = NA.
Proof.
  unfold valid.
  destruct (String.eqb_spec v ""), (String.eqb_spec v NA); simpl; congruence.
Qed.

(** ** C2: the RAM module list *)

(** C2 (counterexample).  The first RAM probe returns one module but no
    total (its modules report capacity 0), so the record is not complete
    and the loop goes on; the second probe's non-empty module list then
    replaces the first one's. *)
Lemma C2_later_module_list_replaces :
  let m1 := [("size", "0.0 GB"); ("manufacturer", "Kingston");
             ("location", "BANK 0"); ("speed", "3200 MHz")] in
  let m2 := [("size", "8.0 GB"); ("manufacturer", "Kingston");
             ("location", "BANK 0"); ("speed", "3200 MHz")] in
  let m3 := [("size", "8.0 GB"); ("manufacturer", "Kingston");
             ("location", "BANK 1"); ("speed", "3200 MHz")] in
  (modules (get_ram_info [Some (mk_ram NA "1" [m1]);
                          Some (mk_ram "16.00 GB" "2" [m2; m3])]) = [m2; m3] /\
   modules (get_ram_info [Some (mk_ram NA "1" [m1]);
                          Some (mk_ram "16.00 GB" "2" [m2; m3])]) <> [m1]).
Proof. split; vm_compute; [reflexivity | discriminate]. Qed.

(** C2 (amended).  Each RAM probe that runs replaces the module list
    whenever its own module list is non-empty (an empty list keeps the
    current one); a probe that raised changes nothing; later probes stop
    running only once total, slots_used and the module list are all
    resolved. *)
Theorem C2_ram_modules_replaced_until_complete :
  (forall r p : ram_info,
      modules (ram_merge r p) =
      match modules p with [] => modules r | ms => ms end) /\
  (forall (r p : ram_info) (rest : list (option ram_info)),
      ram_collect r (Some p :: rest) =
      (if ram_complete (ram_merge r p) then ram_merge r p
       else ram_collect (ram_merge r p) rest)) /\
  (forall (r : ram_info) (rest : list (option ram_info)),
      ram_collect r (None :: rest) = ram_collect r rest).
Proof. repeat split. Qed.

Lemma valid_nonempty (v : string) : valid v = true -> v <> "".
Proof. unfold valid. intros H ->. discriminate. Qed.

Lemma get_disk_info_same_model (a b : disk) :
  dmodel a = dmodel b -> get_disk_info [Some [a]; Some [b]] = [disk_fill a b].
Proof.
  intros E. unfold get_disk_info. simpl. rewrite E, String.eqb_refl. reflexivity.
Qed.

Lemma wmi_disk_type_nonempty (media_type model : option string) :
  wmi_disk_type media_type model <> "".
Proof.
  unfold wmi_disk_type.
  repeat match goal with |- context [if ?b then _ else _] => destruct b end;
    discriminate.
Qed.

Lemma wmic_disk_type_nonempty (mediatype_col model_col : string) :
  wmic_disk_type mediatype_col model_col <> "".
Proof.
  unfold wmic_disk_type. cbv zeta.
  repeat match goal with |- context [if ?b then _ else _] => destruct b end;
    discriminate.
Qed.

(** A disk as the disk probes report it: a type and a free space that are
    never empty, and a resolved size. *)
Definition disk_reported (d : disk) : Prop :=
  dtype d <> "" /\ dfree_space d <> "" /\ valid (dsize d) = true.

Section DiskReported.
Variable G : Type.
Variable gb : Z -> G.
Variable gzero : G.
Variable gadd : G -> G -> G.
Variable gpos : G -> bool.
Variable fmt_gb : G -> string.
Hypothesis fmt_gb_valid : forall x, valid (fmt_gb x) = true.

Lemma NA_nonempty : NA <> "".
Proof. discriminate. Qed.

Lemma wmi_disks_reported (ps : list disk_partition) (lm : list (string * G))
  (ds : list disk_drive) (result : list disk) :
  Forall disk_reported result ->
  Forall disk_reported (wmi_disks G gb gzero gadd gpos fmt_gb ps lm ds result).
Proof.
  revert result. induction ds as [|d ds IH]; intros result Hr; simpl; [exact Hr|].
  destruct (wmi_gb G gb gzero (dd_Size d)) as [size_gb|]; [|exact Hr].
  apply IH. apply Forall_app. split; [exact Hr|]. constructor; [|constructor].
  split; [apply wmi_disk_type_nonempty|split; simpl].
  - destruct (gpos _); [apply valid_nonempty, fmt_gb_valid|exact NA_nonempty].
  - apply fmt_gb_valid.
Qed.

Lemma disk_wmi_reported (c w : bool) (ds : option (list disk_drive))
  (ls : option (list logical_disk)) (ps : option (list disk_partition)) :
  Forall disk_reported (disk_wmi G gb gzero gadd gpos fmt_gb c w ds ls ps).
Proof.
  unfold disk_wmi. destruct (negb c || negb w); [constructor|].
  destruct ds, ls, ps; try constructor.
  destruct (logical_map_of _ _ _ _ _); [|constructor].
  apply wmi_disks_reported. constructor.
Qed.

Lemma wmic_disk_rows_reported (indices : list (Z * string)) (lines : list string) :
  Forall disk_reported (wmic_disk_rows G gb fmt_gb indices lines).
Proof.
  induction lines as [|line lines IH]; simpl; [constructor|].
  destruct (String.eqb (strip line) ""); [exact IH|].
  unfold wmic_disk_row. destruct (col_int _ "size"); [|exact IH].
  constructor; [|exact IH].
  split; [apply wmic_disk_type_nonempty|split; [exact NA_nonempty|apply fmt_gb_valid]].
Qed.

Lemma disk_wmic_reported (w : bool) (mo lo : cmd_outcome) :
  Forall disk_reported (disk_wmic G gb gzero gadd gpos fmt_gb w mo lo).
Proof.
  unfold disk_wmic. destruct (negb w); [constructor|].
  destruct mo as [model_output| | | |]; try constructor. cbv zeta.
  pose proof (wmic_disk_rows_reported
                (sort_pairs
                   [(py_find "mediatype" (lower (hd "" (split_lines (strip model_output)))),
                     "mediatype");
                    (py_find "model" (lower (hd "" (split_lines (strip model_output)))),
                     "model");
                    (py_find "size" (lower (hd "" (split_lines (strip model_output)))),
                     "size")])
                (tl (split_lines (strip model_output)))) as Hr.
  destruct lo; try exact Hr.
  destruct (wmic_disk_rows _ _ _ _ _) as [|d0 rest]; [constructor|].
  destruct (gpos _); [|exact Hr].
  inversion Hr as [|? ? [Ht [_ Hs]] Hrest]; subst.
  constructor; [|exact Hrest].
  split; [exact Ht|split; [apply valid_nonempty, fmt_gb_valid|exact Hs]].
Qed.

Lemma disk_psutil_reported (ok : bool) (pp : option (list (string * option (Z * Z)))) :
  Forall disk_reported (disk_psutil G gb fmt_gb ok pp).
Proof.
  unfold disk_psutil. destruct (negb ok); [constructor|].
  destruct pp as [ps|]; [|constructor].
  induction ps as [|[dev [[t f]|]] ps IH]; simpl; [constructor| |exact IH].
  constructor; [|exact IH].
  split; [exact NA_nonempty|split; simpl;
    [apply valid_nonempty, fmt_gb_valid|apply fmt_gb_valid]].
Qed.

End DiskReported.

Lemma valid_not_NA (v : string) : valid v = true -> String.eqb v NA = false.
Proof.
  unfold valid. intros H. apply andb_prop in H as [_ H].
  apply negb_true_iff in H. exact H.
Qed.

(** ** C3: monotonicity of the merge *)

(** C3.  For two probes A then B of any scalar category (the initial record
    holds the marker for the field), and of the RAM category: a field A
    resolved keeps its value when B returns an empty or unavailable value;
    a field A left unresolved takes B's non-empty value.  For a disk both
    probes report (same model), the type and the free space A resolved are
    kept, and those A left at the marker take B's value.  A disk probe
    never reports an empty type or free space, nor an unresolved size (the
    size is never updated), so for a disk an unresolved field is the
    marker. *)
Theorem C3_merge_monotonic :
  (forall (init a b : dict) (k X : string),
      NoDup (map fst a) -> NoDup (map fst b) ->
      dict_get a k = Some X -> valid X = true ->
      (forall v, dict_get b k = Some v -> valid v = false) ->
      dict_get (collect init [Some a; Some b]) k = Some X) /\
  (forall (init a b : dict) (k Y : string),
      dict_get init k = Some NA ->
      NoDup (map fst a) -> NoDup (map fst b) ->
      (forall v, dict_get a k = Some v -> valid v = false) ->
      dict_get b k = Some Y -> Y <> "" ->
      dict_get (collect init [Some a; Some b]) k = Some Y) /\
  (forall a b : ram_info,
      valid (total a) = true -> valid (total b) = false ->
      total (get_ram_info [Some a; Some b]) = total a) /\
  (forall a b : ram_info,
      valid (total a) = false -> total b <> "" ->
      total (get_ram_info [Some a; Some b]) = total b) /\
  (forall a b : ram_info,
      valid (slots_used a) = true -> valid (slots_used b) = false ->
      slots_used (get_ram_info [Some a; Some b]) = slots_used a) /\
  (forall a b : ram_info,
      valid (slots_used a) = false -> slots_used b <> "" ->
      slots_used (get_ram_info [Some a; Some b]) = slots_used b) /\
  (forall a b : ram_info,
      modules a <> [] -> modules b = [] ->
      modules (get_ram_info [Some a; Some b]) = modules a) /\
  (forall a b : ram_info,
      modules a = [] -> modules b <> [] ->
      modules (get_ram_info [Some a; Some b]) = modules b) /\
  (forall a b : disk,
      dmodel a = dmodel b -> valid (dtype a) = true ->
      map dtype (get_disk_info [Some [a]; Some [b]]) = [dtype a]) /\
  (forall a b : disk,
      dmodel a = dmodel b -> dtype a = NA ->
      map dtype (get_disk_info [Some [a]; Some [b]]) = [dtype b]) /\
  (forall a b : disk,
      dmodel a = dmodel b -> valid (dfree_space a) = true ->
      map dfree_space (get_disk_info [Some [a]; Some [b]]) = [dfree_space a]) /\
  (forall a b : disk,
      dmodel a = dmodel b -> dfree_space a = NA ->
      map dfree_space (get_disk_info [Some [a]; Some [b]]) = [dfree_space b]) /\
  (forall (G : Type) (gb : Z -> G) (gzero : G) (gadd : G -> G -> G) (gpos : G -> bool)
          (fmt_gb : G -> string),
      (forall x, valid (fmt_gb x) = true) ->
      (forall c w ds ls ps,
          Forall disk_reported (disk_wmi G gb gzero gadd gpos fmt_gb c w ds ls ps)) /\
      (forall w mo lo,
          Forall disk_reported (disk_wmic G gb gzero gadd gpos fmt_gb w mo lo)) /\
      (forall ok pp, Forall disk_reported (disk_psutil G gb fmt_gb ok pp))).
Proof.
  repeat match goal with |- _ /\ _ => split end.
  - intros init a b k X Hna Hnb Hk Hv Hb.
    assert (Ha : a <> []) by (eapply dict_get_nonempty; eauto).
    rewrite collect_some_cons by exact Ha. cbv zeta.
    assert (HX : dict_get (merge_probe init a) k = Some X)
      by (rewrite merge_probe_get, Hk, Hv by exact Hna; reflexivity).
    destruct (all_resolved (merge_probe init a)); [exact HX|].
    rewrite collect_single, merge_probe_get by exact Hnb.
    destruct (dict_get b k) eqn:E; [rewrite (Hb s eq_refl)|]; exact HX.
  - intros init a b k Y Hinit Hna Hnb Ha Hk HY.
    assert (Hlast : forall r0, dict_get r0 k = Some NA ->
                    dict_get (collect r0 [Some b]) k = Some Y).
    { intros r0 Hr0. rewrite collect_single, merge_probe_get, Hk by exact Hnb.
      destruct (valid Y) eqn:EY; [reflexivity|].
      rewrite Hr0, (valid_false_nonempty Y EY HY). reflexivity. }
    assert (Hr : dict_get (merge_probe init a) k = Some NA).
    { rewrite merge_probe_get by exact Hna.
      destruct (dict_get a k) eqn:E; [rewrite (Ha s eq_refl)|]; exact Hinit. }
    destruct a as [|kv a'].
    + exact (Hlast init Hinit).
    + rewrite collect_some_cons by discriminate. cbv zeta.
      rewrite (all_resolved_NA _ k Hr). exact (Hlast _ Hr).
  - intros a b Ha Hb. rewrite ram_collect_two. cbv zeta.
    destruct (ram_complete _); simpl; rewrite ?Ha, ?Hb; reflexivity.
  - intros a b Ha Hb. rewrite ram_collect_two. unfold ram_complete. simpl.
    rewrite Ha, String.eqb_refl. simpl.
    destruct (valid (total b)) eqn:E; [reflexivity|].
    rewrite Ha. symmetry. exact (valid_false_nonempty _ E Hb).
  - intros a b Ha Hb. rewrite ram_collect_two. cbv zeta.
    destruct (ram_complete _); simpl; rewrite ?Ha, ?Hb; reflexivity.
  - intros a b Ha Hb. rewrite ram_collect_two. unfold ram_complete. simpl.
    rewrite Ha, String.eqb_refl, andb_false_r. simpl.
    destruct (valid (slots_used b)) eqn:E; [reflexivity|].
    rewrite Ha. symmetry. exact (valid_false_nonempty _ E Hb).
  - intros a b Ha Hb. rewrite ram_collect_two. cbv zeta.
    destruct (modules a) eqn:E; [congruence|].
    destruct (ram_complete _); simpl; rewrite ?E, ?Hb; reflexivity.
  - intros a b Ha Hb. rewrite ram_collect_two. unfold ram_complete. simpl.
    rewrite Ha, andb_false_r. simpl.
    destruct (modules b); congruence.
  - intros a b E Ha. rewrite get_disk_info_same_model by exact E. simpl.
    rewrite (valid_not_NA _ Ha), andb_false_r. reflexivity.
  - intros a b E Ha. rewrite get_disk_info_same_model by exact E. simpl.
    rewrite Ha, String.eqb_refl, andb_true_r.
    destruct (String.eqb_spec (dtype b) NA) as [->|]; reflexivity.
  - intros a b E Ha. rewrite get_disk_info_same_model by exact E. simpl.
    rewrite (valid_not_NA _ Ha), andb_false_r. reflexivity.
  - intros a b E Ha. rewrite get_disk_info_same_model by exact E. simpl.
    rewrite Ha, String.eqb_refl, andb_true_r.
    destruct (String.eqb_spec (dfree_space b) NA) as [->|]; reflexivity.
  - intros G gb gzero gadd gpos fmt_gb Hf. split; [|split].
    + intros. apply disk_wmi_reported. exact Hf.
    + intros. apply disk_wmic_reported. exact Hf.
    + intros. apply disk_psutil_reported. exact Hf.
Qed.

Lemma C3_merge_monotonic_witness :
  dict_get (collect motherboard_init
              [Some [("manufacturer", "ASUS"); ("model", NA)];
               Some [("manufacturer", "")]]) "manufacturer" = Some "ASUS" /\
  dict_get (collect motherboard_init
              [Some [("manufacturer", ""); ("model", NA)];
               Some [("manufacturer", "ASUS")]]) "manufacturer" = Some "ASUS" /\
  total (get_ram_info [Some (mk_ram "8.00 GB" NA []); Some (mk_ram NA NA [])])
    = "8.00 GB" /\
  map dfree_space
    (get_disk_info [Some [mk_disk "ST1000DM010" "HDD" "931.51 GB" NA];
                    Some [mk_disk "ST1000DM010" "HDD" "931.51 GB" "420.10 GB"]])
    = ["420.10 GB"] /\
  Forall disk_reported
    (disk_psutil Z (fun b => b) (fun _ => "0.00 GB") true (Some [("C:", Some (100, 50)%Z)])).
Proof.
  destruct C3_merge_monotonic
    as [H1 [H2 [H3 [_ [_ [_ [_ [_ [_ [_ [_ [H12 H13]]]]]]]]]]]].
  split; [|split; [|split; [|split]]].
  - apply H1; [nodup_keys | nodup_keys | reflexivity | reflexivity |].
    intros v Hv. injection Hv as <-. reflexivity.
  - apply H2; [reflexivity | nodup_keys | nodup_keys | | reflexivity | discriminate].
    intros v Hv. injection Hv as <-. reflexivity.
  - apply (H3 (mk_ram "8.00 GB" NA []) (mk_ram NA NA [])); reflexivity.
  - apply (H12 (mk_disk "ST1000DM010" "HDD" "931.51 GB" NA)
                (mk_disk "ST1000DM010" "HDD" "931.51 GB" "420.10 GB")); reflexivity.
  - destruct (H13 Z (fun b => b) 0%Z Z.add (fun x => (0 <? x)%Z) (fun _ => "0.00 GB")
                  (fun _ => eq_refl)) as [_ [_ Hp]].
    apply Hp.
Defined.

(** ** C4: disk type classification *)

(** C4 (code_bug).  In [_get_disk_info_wmi] the model string is consulted
    only when [MediaType] is missing or empty, although its comment says the
    model is used when the media type is not useful; with the generic media
    type ["Fixed hard disk media"] an NVMe model classifies as HDD, while the
    sibling [_get_disk_info_wmic] classifies the same disk as NVMe.  A media
    type with both markers gives SSD in the WMI probe (no NVMe precedence). *)
Theorem C4_wmi_ignores_nvme_model :
  wmi_disk_type (Some "Fixed hard disk media")
    (Some "Samsung SSD 970 EVO Plus NVMe 500GB") = "HDD" /\
  wmic_disk_type "Fixed hard disk media"
    "Samsung SSD 970 EVO Plus NVMe 500GB" = "NVMe" /\
  wmi_disk_type (Some "SSD NVMe") None = "SSD" /\
  wmic_disk_type "SSD NVMe" "" = "NVMe".
Proof. vm_compute. repeat split. Qed.

(** ** C5: probe failures *)

(** C5 (counterexample).  Output the TPM PowerShell probe cannot decode as
    JSON is not turned into the all-unavailable record: the probe falls back
    to reading it as [Key: value] lines. *)
Lemma C5_tpm_text_fallback_resolves_status :
  dict_get (tpm_powershell true (PsExited 0 "TpmEnabled : True" None)) "status"
  = Some (JStr "Habilitado").
Proof. vm_compute. reflexivity. Qed.

Lemma collect_all_raised (r : dict) (n : nat) :
  collect r (repeat None n) = r.
Proof. induction n; [reflexivity|exact IHn]. Qed.

Lemma ram_collect_all_raised (r : ram_info) (n : nat) :
  ram_collect r (repeat None n) = r.
Proof. induction n; [reflexivity|exact IHn]. Qed.

Lemma disk_collect_all_raised (ds : list disk) (n : nat) :
  disk_collect ds (repeat None n) = ds.
Proof. induction n; [reflexivity|exact IHn]. Qed.

Lemma gpu_collect_all_raised (gs : list string) (n : nat) :
  gpu_collect gs (repeat None n) = gs.
Proof. induction n; [reflexivity|exact IHn]. Qed.

Lemma wmic_disk_rows_free_NA (G : Type) (gb : Z -> G) (fmt_gb : G -> string)
  (indices : list (Z * string)) (lines : list string) :
  Forall (fun d => dfree_space d = NA) (wmic_disk_rows G gb fmt_gb indices lines).
Proof.
  induction lines as [|line lines IH]; simpl; [constructor|].
  destruct (String.eqb (strip line) ""); [exact IH|].
  unfold wmic_disk_row. destruct (col_int _ "size"); [constructor; [reflexivity|]|]; exact IH.
Qed.

(** C5 (amended).  Every source probe catches the failures of its
    interface: when the interface is absent (not Windows, no WMI client, no
    [winreg], [psutil], [cpuinfo] or [screeninfo]), or its first or only
    call fails (the command cannot be launched, exits non-zero, times out or
    gives undecodable output; the WMI query raises; the JSON-only
    PowerShell probes cannot decode the JSON), it returns its
    all-unavailable record, or the empty list.  A probe that raises anyway
    is skipped by its collector, so every collector whose probes all raise
    returns its initial record.  A later call that fails keeps what the
    earlier ones gave: the WMIC disk probe keeps its disks, each with free
    space unavailable, and the WMI Wi-Fi probe keeps the adapter name. *)
Theorem C5_interface_failures_unavailable :
  (* motherboard *)
  (forall (c w : bool) (q : option (list board)),
      c = false \/ w = false \/ q = None -> motherboard_wmi c w q = motherboard_init) /\
  (forall (w : bool) (o : cmd_outcome),
      w = false \/ cmd_failed o -> motherboard_wmic w o = motherboard_init) /\
  (forall (w ok : bool) (o : cmd_outcome),
      w = false \/ ok = false \/ cmd_failed o -> motherboard_registry w ok o = motherboard_init) /\
  (* CPU *)
  (forall (ok : bool) (info : option (option string)),
      ok = false \/ info = None -> cpu_cpuinfo ok info = cpu_init) /\
  (forall (c w : bool) (q : option (list (option string))),
      c = false \/ w = false \/ q = None -> cpu_wmi c w q = cpu_init) /\
  (forall (w : bool) (o : cmd_outcome),
      w = false \/ cmd_failed o -> cpu_wmic w o = cpu_init) /\
  (forall (w ok : bool) (o : cmd_outcome),
      w = false \/ ok = false \/ cmd_failed o -> cpu_registry w ok o = cpu_init) /\
  (* RAM *)
  (forall (G : Type) (gb : Z -> G) (gzero : G) (gadd : G -> G -> G) (gpos : G -> bool)
          (fmt_repr fmt_2f : G -> string),
      (forall (w : bool) (o : ps_list_outcome),
          w = false \/ ps_list_failed o ->
          ram_cim G gb gzero gadd gpos fmt_repr fmt_2f w o = ram_init) /\
      (forall (c w : bool) (q : option (list physical_memory)),
          c = false \/ w = false \/ q = None ->
          ram_wmi G gb gzero gadd gpos fmt_repr fmt_2f c w q = ram_init) /\
      (forall (w : bool) (o : cmd_outcome),
          w = false \/ cmd_failed o ->
          ram_wmic G gb gzero gadd gpos fmt_repr fmt_2f w o = ram_init) /\
      (forall (ok : bool) (m : option Z),
          ok = false \/ m = None -> ram_psutil G gb fmt_2f ok m = ram_init)) /\
  (* disks *)
  (forall (G : Type) (gb : Z -> G) (gzero : G) (gadd : G -> G -> G) (gpos : G -> bool)
          (fmt_gb : G -> string),
      (forall (c w : bool) (ds : option (list disk_drive)) (ls : option (list logical_disk))
              (ps : option (list disk_partition)),
          c = false \/ w = false \/ ds = None \/ ls = None \/ ps = None ->
          disk_wmi G gb gzero gadd gpos fmt_gb c w ds ls ps = []) /\
      (forall (w : bool) (mo lo : cmd_outcome),
          w = false \/ cmd_failed mo -> disk_wmic G gb gzero gadd gpos fmt_gb w mo lo = []) /\
      (forall (w : bool) (mo lo : cmd_outcome),
          cmd_failed lo ->
          Forall (fun d => dfree_space d = NA) (disk_wmic G gb gzero gadd gpos fmt_gb w mo lo)) /\
      (forall (ok : bool) (ps : option (list (string * option (Z * Z)))),
          ok = false \/ ps = None -> disk_psutil G gb fmt_gb ok ps = [])) /\
  (* GPU *)
  (forall (c w : bool) (q : option (list (option string))),
      c = false \/ w = false \/ q = None -> gpu_wmi c w q = []) /\
  (forall (w : bool) (o : cmd_outcome), w = false \/ cmd_failed o -> gpu_wmic w o = []) /\
  (forall (w : bool) (o : ps_list_outcome),
      w = false \/ ps_list_failed o -> gpu_powershell w o = []) /\
  (* display *)
  (forall (ok : bool) (m : option (list monitor)),
      ok = false \/ m = None -> get_display_info ok m = [("resolution", NA)]) /\
  (* TPM *)
  (forall (c w : bool) (q : option (list tpm_instance)),
      c = false \/ w = false \/ q = None -> tpm_wmi c w q = tpm_init) /\
  (forall (w : bool) (o : ps_outcome), w = false \/ ps_failed o -> tpm_powershell w o = tpm_ps_init) /\
  (forall (w : bool) (o : cmd_outcome), w = false \/ cmd_failed o -> tpm_tpmtool w o = tpm_init) /\
  (* Bluetooth *)
  (forall (c w : bool) (q : option (list pnp)),
      c = false \/ w = false \/ q = None -> bt_wmi c w q = bt_init) /\
  (forall (w : bool) (o : cmd_outcome), w = false \/ cmd_failed o -> bt_wmic w o = bt_init) /\
  (forall (w : bool) (o : ps_outcome), w = false \/ ps_failed o -> bt_powershell w o = bt_ps_init) /\
  (* Wi-Fi *)
  (forall (c w : bool) (q : option (list net_config)) adapters ssid_query,
      c = false \/ w = false \/ q = None -> wifi_wmi c w q adapters ssid_query = wifi_init) /\
  (forall adapters ssid_query (description : string) (i : Z) (rest : list net_config),
      contains "wireless" (lower description) = true -> adapters i = None ->
      wifi_wmi true true (Some (mk_netcfg (Some (Some description)) i :: rest))
        adapters ssid_query = dict_set wifi_init "adapter_name" (strip description)) /\
  (forall (w : bool) (o : cmd_outcome), w = false \/ cmd_failed o -> wifi_netsh w o = wifi_init) /\
  (forall json_loads (w : bool) (o : proc_outcome),
      w = false \/ proc_failed o -> wifi_powershell json_loads w o = wifi_ps_init) /\
  (forall json_loads (stdout : string),
      json_loads (hd "" (split_lines (strip stdout))) = None ->
      wifi_powershell json_loads true (ProcExited 0 stdout) = wifi_ps_init) /\
  (* collectors *)
  (forall (r : dict) (rest : list (option dict)), collect r (None :: rest) = collect r rest) /\
  (forall (r : ram_info) (rest : list (option ram_info)),
      ram_collect r (None :: rest) = ram_collect r rest) /\
  (forall (ds : list disk) (rest : list (option (list disk))),
      disk_collect ds (None :: rest) = disk_collect ds rest) /\
  (forall (gs : list string) (rest : list (option (list string))),
      gpu_collect gs (None :: rest) = gpu_collect gs rest) /\
  (forall n : nat,
      get_motherboard_info (repeat None n) = motherboard_init /\
      get_cpu_info (repeat None n) = cpu_init /\
      get_ram_info (repeat None n) = ram_init /\
      get_disk_info (repeat None n) = [] /\
      get_gpu_info (repeat None n) = [] /\
      get_tpm_info (repeat None n) = tpm_init /\
      get_bluetooth_info (repeat None n) = bt_init /\
      get_wifi_info (repeat None n) = wifi_init).
Proof.
  repeat match goal with |- _ /\ _ => split end.
  - intros c w q [ -> | [ -> | -> ]]; [reflexivity| |].
    + unfold motherboard_wmi. rewrite orb_true_r. reflexivity.
    + unfold motherboard_wmi. destruct (negb c || negb w); reflexivity.
  - intros w o [ -> | Ho ]; [reflexivity|]. destruct w; [|reflexivity].
    destruct o; [contradiction|..]; reflexivity.
  - intros w ok o [ -> | [ -> | Ho ]]; [reflexivity| |].
    + unfold motherboard_registry. rewrite orb_true_r. reflexivity.
    + unfold motherboard_registry. destruct (negb w || negb ok); [reflexivity|].
      destruct o; [contradiction|..]; reflexivity.
  - intros ok info [ -> | -> ]; [reflexivity|]. destruct ok; reflexivity.
  - intros c w q [ -> | [ -> | -> ]]; [reflexivity| |].
    + unfold cpu_wmi. rewrite orb_true_r. reflexivity.
    + unfold cpu_wmi. destruct (negb c || negb w); reflexivity.
  - intros w o [ -> | Ho ]; [reflexivity|]. destruct w; [|reflexivity].
    destruct o; [contradiction|..]; reflexivity.
  - intros w ok o [ -> | [ -> | Ho ]]; [reflexivity| |].
    + unfold cpu_registry. rewrite orb_true_r. reflexivity.
    + unfold cpu_registry. destruct (negb w || negb ok); [reflexivity|].
      destruct o; [contradiction|..]; reflexivity.
  - intros G gb gzero gadd gpos fmt_repr fmt_2f.
    repeat split.
    + intros w o [ -> | Ho ]; [reflexivity|]. destruct w; [|reflexivity].
      destruct o as [rc stdout json| | |]; try reflexivity.
      unfold ram_cim. simpl negb. cbv iota.
      destruct Ho as [Hrc | -> ].
      * apply Z.eqb_neq in Hrc. rewrite Hrc. reflexivity.
      * destruct (_ && _); reflexivity.
    + intros c w q [ -> | [ -> | -> ]]; [reflexivity| |].
      * unfold ram_wmi. rewrite orb_true_r. reflexivity.
      * unfold ram_wmi. destruct (negb c || negb w); reflexivity.
    + intros w o [ -> | Ho ]; [reflexivity|]. destruct w; [|reflexivity].
      destruct o; [contradiction|..]; reflexivity.
    + intros ok m [ -> | -> ]; [reflexivity|]. destruct ok; reflexivity.
  - intros G gb gzero gadd gpos fmt_gb.
    repeat split.
    + intros c w ds ls ps H. unfold disk_wmi.
      destruct c, w; simpl; try reflexivity.
      destruct H as [H|[H|[H|[H|H]]]]; try discriminate; subst;
        [reflexivity|destruct ds; reflexivity|destruct ds, ls; reflexivity].
    + intros w mo lo [ -> | Ho ]; [reflexivity|]. destruct w; [|reflexivity].
      destruct mo; [contradiction|..]; reflexivity.
    + intros w mo lo Ho. unfold disk_wmic. destruct (negb w); [constructor|].
      destruct mo as [model_output| | | |]; try constructor.
      destruct lo; [contradiction|..]; apply wmic_disk_rows_free_NA.
    + intros ok ps [ -> | -> ]; [reflexivity|]. destruct ok; reflexivity.
  - intros c w q [ -> | [ -> | -> ]]; [reflexivity| |].
    + unfold gpu_wmi. rewrite orb_true_r. reflexivity.
    + unfold gpu_wmi. destruct (negb c || negb w); reflexivity.
  - intros w o [ -> | Ho ]; [reflexivity|]. destruct w; [|reflexivity].
    destruct o; [contradiction|..]; reflexivity.
  - intros w o [ -> | Ho ]; [reflexivity|]. destruct w; [|reflexivity].
    destruct o as [rc stdout json| | |]; try reflexivity.
    unfold gpu_powershell. simpl negb. cbv iota.
    destruct Ho as [Hrc | -> ].
    + apply Z.eqb_neq in Hrc. rewrite Hrc. reflexivity.
    + destruct (_ && _); reflexivity.
  - intros ok m [ -> | -> ]; [reflexivity|]. destruct ok; reflexivity.
  - intros c w q [ -> | [ -> | -> ]]; [reflexivity| |].
    + unfold tpm_wmi. rewrite orb_true_r. reflexivity.
    + unfold tpm_wmi. destruct (negb c || negb w); reflexivity.
  - intros w o [ -> | Ho ]; [reflexivity|]. destruct w; [|reflexivity].
    destruct o as [rc stdout json| | |]; try reflexivity.
    unfold tpm_powershell. simpl negb. cbv iota.
    apply Z.eqb_neq in Ho. rewrite Ho. reflexivity.
  - intros w o [ -> | Ho ]; [reflexivity|]. destruct w; [|reflexivity].
    destruct o; [contradiction|..]; reflexivity.
  - intros c w q [ -> | [ -> | -> ]]; [reflexivity| |].
    + unfold bt_wmi. rewrite orb_true_r. reflexivity.
    + unfold bt_wmi. destruct (negb c || negb w); reflexivity.
  - intros w o [ -> | Ho ]; [reflexivity|]. destruct w; [|reflexivity].
    destruct o; [contradiction|..]; reflexivity.
  - intros w o [ -> | Ho ]; [reflexivity|]. destruct w; [|reflexivity].
    destruct o as [rc stdout json| | |]; try reflexivity.
    unfold bt_powershell. simpl negb. cbv iota.
    apply Z.eqb_neq in Ho. rewrite Ho. reflexivity.
  - intros c w q adapters ssid_query [ -> | [ -> | -> ]]; [reflexivity| |].
    + unfold wifi_wmi. rewrite orb_true_r. reflexivity.
    + unfold wifi_wmi. destruct (negb c || negb w); reflexivity.
  - intros adapters ssid_query description i rest Hw Hi.
    unfold wifi_wmi. cbn - [contains lower strip dict_set wifi_init].
    rewrite Hw, Hi. reflexivity.
  - intros w o [ -> | Ho ]; [reflexivity|]. destruct w; [|reflexivity].
    destruct o; [contradiction|..]; reflexivity.
  - intros json_loads w o [ -> | Ho ]; [reflexivity|]. destruct w; [|reflexivity].
    destruct o as [rc stdout| | |]; try reflexivity.
    unfold wifi_powershell. simpl negb. cbv iota.
    apply Z.eqb_neq in Ho. rewrite Ho. reflexivity.
  - intros json_loads stdout H. unfold wifi_powershell. simpl negb. cbv iota.
    destruct (_ && _); [|reflexivity]. rewrite H. reflexivity.
  - reflexivity.
  - reflexivity.
  - reflexivity.
  - reflexivity.
  - intros n. repeat split.
    + apply collect_all_raised.
    + apply collect_all_raised.
    + apply ram_collect_all_raised.
    + apply disk_collect_all_raised.
    + apply gpu_collect_all_raised.
    + apply collect_all_raised.
    + apply collect_all_raised.
    + apply collect_all_raised.
Qed.

Lemma C5_interface_failures_unavailable_witness :
  cmd_failed CmdTimeout /\
  motherboard_wmic true CmdTimeout = motherboard_init /\
  ps_failed (PsExited 1 "" None) /\
  tpm_powershell true (PsExited 1 "" None) = tpm_ps_init /\
  ps_list_failed (PsListExited 0 "{" None) /\
  gpu_powershell true (PsListExited 0 "{" None) = [] /\
  contains "wireless" (lower "Intel(R) Wireless-AC 9560") = true /\
  wifi_wmi true true
    (Some [mk_netcfg (Some (Some "Intel(R) Wireless-AC 9560")) 1])
    (fun _ => None) (fun _ => None) =
  dict_set wifi_init "adapter_name" "Intel(R) Wireless-AC 9560".
Proof.
  destruct C5_interface_failures_unavailable
    as [_ [Hmb [_ [_ [_ [_ [_ [_ [_ [_ [_ [Hgpu [_ [_ [Htpm [_ [_ [_ [_ [_ [Hwifi _]]]]]]]]]]]]]]]]]]]]].
  split; [exact I|split; [apply Hmb; right; exact I|]].
  split; [discriminate|split; [apply Htpm; right; discriminate|]].
  split; [right; reflexivity|split; [apply Hgpu; right; right; reflexivity|]].
  split; [vm_compute; reflexivity|].
  apply (Hwifi (fun _ => None) (fun _ => None) "Intel(R) Wireless-AC 9560" 1%Z []);
    [vm_compute|]; reflexivity.
Defined.

(** ** C9: the fixed-width parser of [_get_motherboard_info_wmic] *)

(** C9 (code_bug).  [_get_motherboard_info_wmic] strips the data row before
    cutting it at the header offsets, so a row whose first column is blank
    (no manufacturer) is shifted left and every column is cut at the wrong
    place.  The sibling parsers of [_get_ram_info_wmic] and
    [_get_disk_info_wmic] cut the unstripped line, which gives the columns
    the claim describes. *)
Theorem C9_stripped_row_misaligns_columns :
  let crlf := String (ascii_of_nat 13) (String nl "") in
  let header := "Manufacturer  Product  SerialNumber" in
  let row := "              B450M    ABC123" in
  (motherboard_wmic true (CmdOk (header ++ crlf ++ row ++ crlf)) =
     [("manufacturer", "B450M    ABC12"); ("model", "3");
      ("serial_number", NA)] /\
   column_values
     (sort_pairs [(py_find "manufacturer" (lower header), "manufacturer");
                  (py_find "product" (lower header), "model");
                  (py_find "serialnumber" (lower header), "serial_number")]) row =
     [("manufacturer", ""); ("model", "B450M"); ("serial_number", "ABC123")]).
Proof. vm_compute. split; reflexivity. Qed.

(** ** C6: no empty field in exported records *)

(** C6 (code_bug).  A CIM module whose [BankLabel] and [DeviceLocator] are
    both empty gets [location = ""] ([a.strip() or b.strip()] falls through
    to the empty string), and [get_ram_info] exports that module as it is;
    the sibling [_get_ram_info_wmi] maps the same attributes to the
    unavailable marker. *)
Theorem C6_cim_module_empty_location :
  forall size_text : Z -> string,
  let module := [("Capacity", JInt 8589934592); ("Manufacturer", JStr "Kingston");
                 ("PartNumber", JStr "KF3200C16D4/8GX"); ("BankLabel", JStr "");
                 ("DeviceLocator", JStr ""); ("Speed", JInt 3200)] in
  let d := [("size", size_text 8589934592%Z); ("manufacturer", "Kingston");
            ("location", ""); ("speed", "3200 MHz")] in
  (cim_module size_text module = Some d /\
   dict_get d "location" = Some "" /\
   (forall rest, modules (get_ram_info (Some (mk_ram "8.00 GB" "1" [d]) :: rest)) = [d]) /\
   wmi_module_location (Some "") (Some "") = NA).
Proof.
  intros size_text. cbv zeta. split; [|split; [|split]].
  - vm_compute. reflexivity.
  - reflexivity.
  - intros rest. reflexivity.
  - reflexivity.
Qed.

(** ** C8: manufacturer resolution of RAM modules *)

Lemma part_number_vendor_table (p : string) :
  part_number_vendor p =
  match first_match ram_vendor_table p with
  | Some name => name
  | None => "Não identificado"
  end.
Proof.
  unfold part_number_vendor, ram_vendor_table. simpl.
  repeat match goal with |- context [if ?b then _ else _] => destruct b end;
    reflexivity.
Qed.

Lemma part_number_vendor_final (p : string) :
  String.eqb (part_number_vendor p) "" || is_generic (part_number_vendor p) = false.
Proof.
  unfold part_number_vendor.
  repeat match goal with |- context [if ?b then _ else _] => destruct b end;
    vm_compute; reflexivity.
Qed.

(** C8.  On the stripped [Manufacturer] and [PartNumber] strings the probe
    reads, the module's manufacturer is the manufacturer itself when it is
    present and not a generic placeholder, otherwise the name of the first
    pattern of the ordered table found in the part number, otherwise
    ["Não identificado"]; ["KHX2666C16"] gives Kingston and ["XYZ123"] with
    no manufacturer gives ["Não identificado"]. *)
Theorem C8_resolve_manufacturer_by_table :
  (forall manufacturer part_number : string,
      resolve_manufacturer manufacturer part_number =
      spec_resolve_manufacturer manufacturer part_number) /\
  resolve_manufacturer "" "KHX2666C16" = "Kingston" /\
  resolve_manufacturer "" "XYZ123" = "Não identificado".
Proof.
  split; [|split; vm_compute; reflexivity].
  intros m p. unfold resolve_manufacturer, spec_resolve_manufacturer.
  destruct (String.eqb m "") eqn:Em, (is_generic m) eqn:Eg; simpl;
    try (rewrite Em, Eg; reflexivity);
    (destruct (String.eqb p "") eqn:Ep;
     [apply String.eqb_eq in Ep; subst p; simpl; rewrite ?Em, ?Eg, ?orb_true_r;
      reflexivity
     |simpl; rewrite part_number_vendor_final, part_number_vendor_table;
      reflexivity]).
Qed.

(** ** C7: identity of list entities *)

(** C7 (counterexample).  Two disk probes report the same drive as
    ["Samsung 970 EVO"] and ["SAMSUNG 970 EVO"]: the models are equal up to
    case, yet [get_disk_info] keeps two entries, neither with both fields. *)
Lemma C7_models_equal_up_to_case_not_merged :
  get_disk_info
    [Some [mk_disk "Samsung 970 EVO" NA "500.00 GB" "120.00 GB"];
     Some [mk_disk "SAMSUNG 970 EVO" "SSD" "500.00 GB" NA]] =
  [mk_disk "Samsung 970 EVO" NA "500.00 GB" "120.00 GB";
   mk_disk "SAMSUNG 970 EVO" "SSD" "500.00 GB" NA] /\
  lower (strip "Samsung 970 EVO") = lower (strip "SAMSUNG 970 EVO").
Proof. split; vm_compute; reflexivity. Qed.

Lemma merge_disk_fresh (all_disks : list disk) (d : disk) :
  Forall (fun e => dmodel e <> dmodel d) all_disks ->
  merge_disk all_disks d = (all_disks ++ [d])%list.
Proof.
  induction 1 as [|e rest He _ IH]; [reflexivity|]. simpl.
  destruct (String.eqb_spec (dmodel e) (dmodel d)); [contradiction|].
  rewrite IH. reflexivity.
Qed.

Lemma merge_disk_match (pre post : list disk) (e d : disk) :
  Forall (fun x => dmodel x <> dmodel d) pre -> dmodel e = dmodel d ->
  merge_disk ((pre ++ e :: post)%list) d = (pre ++ disk_fill e d :: post)%list.
Proof.
  intros Hpre He. induction Hpre as [|x rest Hx _ IH]; simpl.
  - rewrite He, String.eqb_refl. reflexivity.
  - destruct (String.eqb_spec (dmodel x) (dmodel d)); [contradiction|].
    rewrite IH. reflexivity.
Qed.

(** C7 (amended).  A disk is merged into the first listed disk whose model
    string is exactly equal to its own (no trimming, no case folding);
    the listed disk then takes the new disk's type and free_space where it
    held the unavailable marker and the new one does not, and keeps its
    other fields; a disk whose model matches none is appended.  A GPU whose
    model is exactly equal to a listed one is dropped, otherwise appended.
    Two probes reporting ["Samsung 970 EVO"], one with the free space and
    one with the type, give one entry with both. *)
Theorem C7_exact_model_merge :
  (forall (all_disks : list disk) (d : disk),
      Forall (fun e => dmodel e <> dmodel d) all_disks ->
      merge_disk all_disks d = (all_disks ++ [d])%list) /\
  (forall (pre post : list disk) (e d : disk),
      Forall (fun x => dmodel x <> dmodel d) pre -> dmodel e = dmodel d ->
      merge_disk ((pre ++ e :: post)%list) d = (pre ++ disk_fill e d :: post)%list) /\
  (forall e d : disk,
      dmodel (disk_fill e d) = dmodel e /\ dsize (disk_fill e d) = dsize e /\
      dtype (disk_fill e d) =
        (if String.eqb (dtype e) NA then dtype d else dtype e) /\
      dfree_space (disk_fill e d) =
        (if String.eqb (dfree_space e) NA then dfree_space d else dfree_space e)) /\
  (forall (result : list string) (gpu : string),
      In gpu result -> merge_gpu result gpu = result) /\
  (forall (result : list string) (gpu : string),
      ~ In gpu result -> merge_gpu result gpu = (result ++ [gpu])%list) /\
  get_disk_info
    [Some [mk_disk "Samsung 970 EVO" NA "500.00 GB" "120.00 GB"];
     Some [mk_disk "Samsung 970 EVO" "SSD" "500.00 GB" NA]] =
  [mk_disk "Samsung 970 EVO" "SSD" "500.00 GB" "120.00 GB"].
Proof.
  split; [exact merge_disk_fresh|].
  split; [exact merge_disk_match|].
  split; [|split; [|split; [|vm_compute; reflexivity]]].
  - intros e d. unfold disk_fill. simpl. split; [reflexivity|split; [reflexivity|]].
    destruct (String.eqb_spec (dtype e) NA), (String.eqb_spec (dtype d) NA),
      (String.eqb_spec (dfree_space e) NA), (String.eqb_spec (dfree_space d) NA);
      simpl; split; congruence.
  - intros result gpu Hin. unfold merge_gpu.
    replace (existsb (String.eqb gpu) result) with true; [reflexivity|].
    symmetry. apply existsb_exists. exists gpu. split; [exact Hin|apply String.eqb_refl].
  - intros result gpu Hin. unfold merge_gpu.
    destruct (existsb (String.eqb gpu) result) eqn:E; [|reflexivity].
    apply existsb_exists in E. destruct E as [x [Hx Ex]].
    apply String.eqb_eq in Ex. subst x. contradiction.
Qed.

Lemma C7_exact_model_merge_witness :
  merge_disk [mk_disk "A" NA "1.00 GB" NA] (mk_disk "B" "SSD" "2.00 GB" NA) =
    [mk_disk "A" NA "1.00 GB" NA; mk_disk "B" "SSD" "2.00 GB" NA] /\
  merge_gpu ["GPU"] "GPU" = ["GPU"].
Proof.
  destruct C7_exact_model_merge as [Hfresh [_ [_ [Hin _]]]].
  split.
  - apply Hfresh. repeat constructor. simpl. discriminate.
  - apply Hin. left. reflexivity.
Defined.

(** ** C10: free space in the WMIC disk probe *)

(** C10 (counterexample).  The claim says the summed free space goes to the
    first disk.  With local logical disks that are full, the sum is 0 and
    the [total_free_space_gb > 0] guard leaves the first disk at the
    unavailable marker as well. *)
Lemma C10_zero_sum_not_assigned :
  let crlf := String (ascii_of_nat 13) (String nl "") in
  let drives := "MediaType              Model        Size           " ++ crlf ++
                "Fixed hard disk media  ST1000DM010  1000202273280  " ++ crlf ++
                "Fixed hard disk media  Samsung SSD  500105249280   " ++ crlf in
  let logical := "DeviceID  FreeSpace  Size           " ++ crlf ++
                 "C:        0          1000202273280  " ++ crlf in
  (map dfree_space
     (disk_wmic Z gb_hundredths 0%Z Z.add (fun x => 0 <? x)%Z fmt_hundredths true
        (CmdOk drives) (CmdOk logical)) = [NA; NA] /\
   logical_free_total Z gb_hundredths 0%Z Z.add logical = 0%Z).
Proof. vm_compute. split; reflexivity. Qed.

Lemma wmic_disk_rows_unavailable (G : Type) (gb : Z -> G) (fmt_gb : G -> string)
  (indices : list (Z * string)) (lines : list string) :
  Forall (fun d => dfree_space d = NA) (wmic_disk_rows G gb fmt_gb indices lines).
Proof.
  induction lines as [|line rest IH]; simpl; [constructor|].
  destruct (String.eqb (strip line) ""); [exact IH|].
  unfold wmic_disk_row. destruct (col_int _ "size"); [|exact IH].
  constructor; [reflexivity|exact IH].
Qed.

(** C10 (amended).  In [_get_disk_info_wmic], every disk after the first
    reports free_space as the unavailable marker; the first disk reports
    the free space summed over all local logical disks when that sum is
    positive, and the unavailable marker when it is not or when the
    logical-disk query failed. *)
Theorem C10_free_space_first_disk_only :
  forall (G : Type) (gb : Z -> G) (gzero : G) (gadd : G -> G -> G)
         (gpos : G -> bool) (fmt_gb : G -> string)
         (is_windows : bool) (model_out logical_out : cmd_outcome),
  let ds := disk_wmic G gb gzero gadd gpos fmt_gb is_windows model_out logical_out in
  (forall (i : nat) (d : disk), nth_error ds (S i) = Some d -> dfree_space d = NA) /\
  (forall (d0 : disk) (rest : list disk), ds = d0 :: rest ->
     dfree_space d0 =
     match logical_out with
     | CmdOk out =>
         let total := logical_free_total G gb gzero gadd out in
         if gpos total then fmt_gb total else NA
     | _ => NA
     end).
Proof.
  intros G gb gzero gadd gpos fmt_gb w mo lo ds.
  assert (Hds : Forall (fun d => dfree_space d = NA) (tl ds) /\
                forall d0 rest, ds = d0 :: rest ->
                  dfree_space d0 =
                  match lo with
                  | CmdOk out =>
                      let total := logical_free_total G gb gzero gadd out in
                      if gpos total then fmt_gb total else NA
                  | _ => NA
                  end).
  { unfold ds, disk_wmic. destruct w; [|split; [constructor|discriminate]].
    destruct mo as [model_output| | | |]; try (split; [constructor|discriminate]).
    simpl negb. cbv iota zeta.
    match goal with
    | |- context [wmic_disk_rows G gb fmt_gb ?ix ?ls] =>
        pose proof (wmic_disk_rows_unavailable G gb fmt_gb ix ls) as Hrows;
        destruct (wmic_disk_rows G gb fmt_gb ix ls) as [|d0 rest] eqn:Erows
    end.
    - destruct lo; (split; [constructor|discriminate]).
    - inversion Hrows as [|? ? Hd0 Hrest]; subst.
      destruct lo as [out| | | |].
      + cbv zeta. destruct (gpos _) eqn:Ep.
        * split; [exact Hrest|]. intros d1 r1 E. injection E as <- <-.
          reflexivity.
        * split; [exact Hrest|]. intros d1 r1 E. injection E as <- <-.
          exact Hd0.
      + split; [exact Hrest|]. intros d1 r1 E. injection E as <- <-. exact Hd0.
      + split; [exact Hrest|]. intros d1 r1 E. injection E as <- <-. exact Hd0.
      + split; [exact Hrest|]. intros d1 r1 E. injection E as <- <-. exact Hd0.
      + split; [exact Hrest|]. intros d1 r1 E. injection E as <- <-. exact Hd0. }
  destruct Hds as [Htl Hhd]. split; [|exact Hhd].
  intros i d Hi. destruct ds as [|d0 rest]; [destruct i; discriminate|].
  simpl in Hi, Htl. apply nth_error_In in Hi.
  rewrite Forall_forall in Htl. exact (Htl d Hi).
Qed.

Lemma C10_free_space_first_disk_only_witness :
  let crlf := String (ascii_of_nat 13) (String nl "") in
  let drives := "MediaType              Model        Size           " ++ crlf ++
                "Fixed hard disk media  ST1000DM010  1000202273280  " ++ crlf ++
                "Fixed hard disk media  Samsung SSD  500105249280   " ++ crlf in
  let logical := "DeviceID  FreeSpace     Size           " ++ crlf ++
                 "C:        107374182400  1000202273280  " ++ crlf in
  let ds := disk_wmic Z gb_hundredths 0%Z Z.add (fun x => 0 <? x)%Z fmt_hundredths
              true (CmdOk drives) (CmdOk logical) in
  (dfree_space (hd (mk_disk "" "" "" "") ds) = "100.00 GB" /\
   dfree_space (hd (mk_disk "" "" "" "") (tl ds)) = NA).
Proof.
  intros crlf drives logical ds.
  destruct (C10_free_space_first_disk_only Z gb_hundredths 0%Z Z.add
              (fun x => 0 <? x)%Z fmt_hundredths true (CmdOk drives) (CmdOk logical))
    as [Htl Hhd].
  fold ds in Htl, Hhd.
  assert (E : exists d0 d1, ds = [d0; d1]) by (vm_compute; eauto).
  destruct E as [d0 [d1 E]]. rewrite E in Htl, Hhd |- *. simpl.
  split.
  - rewrite (Hhd d0 [d1] eq_refl). vm_compute. reflexivity.
  - apply (Htl 0 d1). reflexivity.
Defined.

(** * Further properties of the collectors *)

Lemma dict_set_Forall (P : string -> Prop) (d : dict) (k v : string) :
  Forall (fun kv => P (snd kv)) d -> P v -> Forall (fun kv => P (snd kv)) (dict_set d k v).
Proof.
  intros Hd Hv. induction Hd as [|[k0 v0] d H0 Hd' IH]; simpl.
  - repeat constructor. exact Hv.
  - destruct (String.eqb k0 k); constructor; simpl; auto.
Qed.

Lemma merge_probe_nonempty (r p : dict) :
  Forall (fun kv => snd kv <> "") r -> Forall (fun kv => snd kv <> "") (merge_probe r p).
Proof.
  revert r. induction p as [|kv p IH]; intros r Hr; [exact Hr|].
  rewrite merge_probe_cons. apply IH.
  destruct (valid (snd kv)) eqn:E; [|exact Hr].
  apply (dict_set_Forall (fun v => v <> "")); [exact Hr|exact (valid_nonempty _ E)].
Qed.

(** X1.  A scalar collector never puts the empty string in a field: when
    every field of the initial record is non-empty (all of them start at
    ["Não disponível"]), so is every field of the result, whatever the
    probes return or raise. *)
Theorem X1_collect_no_empty_field :
  forall (init : dict) (outcomes : list (option dict)),
  Forall (fun kv => snd kv <> "") init ->
  Forall (fun kv => snd kv <> "") (collect init outcomes).
Proof.
  intros init outcomes. revert init.
  induction outcomes as [|[p|] rest IH]; intros init Hi; simpl; [exact Hi| |exact (IH _ Hi)].
  destruct p as [|kv p]; [exact (IH _ Hi)|].
  pose proof (merge_probe_nonempty init (kv :: p) Hi) as Hm.
  destruct (all_resolved _); [exact Hm|exact (IH _ Hm)].
Qed.

Lemma X1_collect_no_empty_field_witness :
  Forall (fun kv => snd kv <> "")
    (get_motherboard_info [Some [("manufacturer", ""); ("model", "B450M")]]).
Proof.
  apply X1_collect_no_empty_field.
  repeat constructor; simpl; unfold NA; discriminate.
Defined.

Lemma dict_set_keys {V : Type} (d : list (string * V)) (k : string) (v : V) :
  In k (map fst d) -> map fst (dict_set d k v) = map fst d.
Proof.
  induction d as [|[k0 v0] d IH]; simpl; [contradiction|].
  intros H. destruct (String.eqb_spec k0 k); simpl; [reflexivity|].
  rewrite IH; [reflexivity|]. destruct H; [congruence|assumption].
Qed.

Lemma merge_probe_keys (r p : dict) :
  incl (map fst p) (map fst r) -> map fst (merge_probe r p) = map fst r.
Proof.
  revert r. induction p as [|[k v] p IH]; intros r Hincl; [reflexivity|].
  rewrite merge_probe_cons. simpl.
  assert (Hk : In k (map fst r)) by (apply Hincl; left; reflexivity).
  destruct (valid v).
  - rewrite IH; rewrite dict_set_keys by exact Hk; [reflexivity|].
    intros x Hx. apply Hincl. right. exact Hx.
  - apply IH. intros x Hx. apply Hincl. right. exact Hx.
Qed.

(** X2.  When every probe returns only keys of the collector's initial
    record (as each probe of the file does), the collected record has
    exactly the initial keys, in the initial order. *)
Theorem X2_collect_keeps_keys :
  forall (init : dict) (outcomes : list (option dict)),
  (forall p, In (Some p) outcomes -> incl (map fst p) (map fst init)) ->
  map fst (collect init outcomes) = map fst init.
Proof.
  intros init outcomes. revert init.
  induction outcomes as [|[p|] rest IH]; intros init H; simpl; [reflexivity| |].
  - assert (Hp : incl (map fst p) (map fst init)) by (apply H; left; reflexivity).
    assert (Hrest : forall q, In (Some q) rest ->
                    incl (map fst q) (map fst (merge_probe init p))).
    { intros q Hq. rewrite merge_probe_keys by exact Hp.
      apply H. right. exact Hq. }
    destruct p as [|kv p]; [apply IH; intros q Hq; apply H; right; exact Hq|].
    cbv zeta. destruct (all_resolved _).
    + apply merge_probe_keys. exact Hp.
    + rewrite IH by exact Hrest. apply merge_probe_keys. exact Hp.
  - apply IH. intros q Hq. apply H. right. exact Hq.
Qed.

Lemma X2_collect_keeps_keys_witness :
  map fst (get_cpu_info [Some [("brand", "Intel")]; None; Some [("model", "i5")]])
  = ["brand"; "model"].
Proof.
  apply X2_collect_keeps_keys. intros p Hp.
  simpl in Hp. destruct Hp as [Hp|[Hp|[Hp|[]]]]; try discriminate;
    injection Hp as <-; intros x Hx; simpl in *; tauto.
Defined.

(** X3.  [get_ram_info] never reports an empty total or slot count: each is
    ["Não disponível"] or a probe's valid value. *)
Theorem X3_ram_scalars_nonempty :
  forall outcomes : list (option ram_info),
  total (get_ram_info outcomes) <> "" /\ slots_used (get_ram_info outcomes) <> "".
Proof.
  unfold get_ram_info.
  assert (H : forall r, total r <> "" -> slots_used r <> "" ->
              forall outcomes, total (ram_collect r outcomes) <> "" /\
                               slots_used (ram_collect r outcomes) <> "").
  { intros r Ht Hs outcomes. revert r Ht Hs.
    induction outcomes as [|[p|] rest IH]; intros r Ht Hs; simpl; [auto| |auto].
    assert (Ht' : total (ram_merge r p) <> "").
    { simpl. destruct (valid (total p)) eqn:E; [exact (valid_nonempty _ E)|exact Ht]. }
    assert (Hs' : slots_used (ram_merge r p) <> "").
    { simpl. destruct (valid (slots_used p)) eqn:E; [exact (valid_nonempty _ E)|exact Hs]. }
    destruct (ram_complete _); [auto|exact (IH _ Ht' Hs')]. }
  intros outcomes. apply H; unfold ram_init, NA; simpl; discriminate.
Qed.


Lemma NoDup_snoc {A : Type} (l : list A) (x : A) :
  NoDup l -> ~ In x l -> NoDup (l ++ [x])%list.
Proof.
  induction l as [|a l IH]; simpl; intros Hl Hx.
  - constructor; [intros []|constructor].
  - inversion Hl as [|? ? Ha Hl']; subst. constructor.
    + rewrite in_app_iff. simpl. intros [H|[H|[]]]; [contradiction|].
      apply Hx. left. symmetry. exact H.
    + apply IH; [exact Hl'|]. intros H. apply Hx. right. exact H.
Qed.

Lemma existsb_eqb_In (x : string) (l : list string) :
  existsb (String.eqb x) l = true <-> In x l.
Proof.
  rewrite existsb_exists. split.
  - intros [y [Hy E]]. apply String.eqb_eq in E. subst y. exact Hy.
  - intros H. exists x. split; [exact H|apply String.eqb_refl].
Qed.

Lemma merge_disk_models (l : list disk) (d : disk) :
  map dmodel (merge_disk l d) =
  if existsb (String.eqb (dmodel d)) (map dmodel l) then map dmodel l
  else (map dmodel l ++ [dmodel d])%list.
Proof.
  induction l as [|e l IH]; [reflexivity|]. simpl.
  rewrite (String.eqb_sym (dmodel d) (dmodel e)).
  destruct (String.eqb (dmodel e) (dmodel d)); simpl; [reflexivity|].
  rewrite IH. destruct (existsb _ _); reflexivity.
Qed.

Lemma merge_disk_In (l : list disk) (d : disk) (m : string) :
  In m (map dmodel (merge_disk l d)) <-> In m (map dmodel l) \/ dmodel d = m.
Proof.
  rewrite merge_disk_models. destruct (existsb _ _) eqn:E.
  - apply existsb_eqb_In in E. split; [auto|]. intros [H|<-]; assumption.
  - rewrite in_app_iff. simpl. tauto.
Qed.

Lemma merge_disk_NoDup (l : list disk) (d : disk) :
  NoDup (map dmodel l) -> NoDup (map dmodel (merge_disk l d)).
Proof.
  intros H. rewrite merge_disk_models. destruct (existsb _ _) eqn:E; [exact H|].
  apply NoDup_snoc; [exact H|]. intros Hin.
  apply existsb_eqb_In in Hin. congruence.
Qed.

Lemma fold_merge_disk (l acc : list disk) :
  (NoDup (map dmodel acc) -> NoDup (map dmodel (fold_left merge_disk l acc))) /\
  (forall m, In m (map dmodel (fold_left merge_disk l acc)) <->
             In m (map dmodel acc) \/ exists d, In d l /\ dmodel d = m).
Proof.
  revert acc. induction l as [|d l IH]; intros acc; simpl.
  - split; [auto|]. intros m. split; [auto|]. intros [H|[d [[] _]]]. exact H.
  - destruct (IH (merge_disk acc d)) as [N I]. split.
    + intros H. apply N. apply merge_disk_NoDup. exact H.
    + intros m. rewrite I, merge_disk_In. split.
      * intros [[H|H]|[d' [Hd' E]]]; [left; exact H|right; exists d; auto|].
        right. exists d'. auto.
      * intros [H|[d' [[<-|Hd'] E]]]; [left; left; exact H|left; right; exact E|].
        right. exists d'. auto.
Qed.

Lemma disk_collect_models (outcomes : list (option (list disk))) (acc : list disk) :
  NoDup (map dmodel acc) ->
  NoDup (map dmodel (disk_collect acc outcomes)) /\
  (forall m, In m (map dmodel (disk_collect acc outcomes)) <->
             In m (map dmodel acc) \/
             exists l d, In (Some l) outcomes /\ In d l /\ dmodel d = m).
Proof.
  revert acc. induction outcomes as [|[l|] rest IH]; intros acc Hacc; simpl.
  - split; [exact Hacc|]. intros m. split; [auto|].
    intros [H|[l [d [[] _]]]]. exact H.
  - destruct (fold_merge_disk l acc) as [FN FI].
    destruct (IH _ (FN Hacc)) as [N I]. split; [exact N|]. intros m.
    rewrite I, FI. split.
    + intros [[H|[d [Hd E]]]|[l' [d [Hl' [Hd E]]]]]; [left; exact H| |].
      * right. exists l, d. auto.
      * right. exists l', d. auto.
    + intros [H|[l' [d [[Hl'|Hl'] [Hd E]]]]]; [left; left; exact H| |].
      * injection Hl' as <-. left. right. exists d. auto.
      * right. exists l', d. auto.
  - destruct (IH _ Hacc) as [N I]. split; [exact N|]. intros m.
    rewrite I. split.
    + intros [H|[l' [d [Hl' Hd]]]]; [left; exact H|]. right. exists l', d. auto.
    + intros [H|[l' [d [[Hl'|Hl'] Hd]]]]; [left; exact H|discriminate|].
      right. exists l', d. auto.
Qed.

(** X5.  [get_disk_info] lists each model at most once, and the models it
    lists are exactly those of the disks returned by the probes that did
    not raise: no reported drive is lost and none is invented, while drives
    with the same model string collapse into one entry. *)
Theorem X5_disk_models_exact :
  forall outcomes : list (option (list disk)),
  NoDup (map dmodel (get_disk_info outcomes)) /\
  (forall m, In m (map dmodel (get_disk_info outcomes)) <->
             exists l d, In (Some l) outcomes /\ In d l /\ dmodel d = m).
Proof.
  intros outcomes. unfold get_disk_info.
  destruct (disk_collect_models outcomes [] (NoDup_nil _)) as [N I].
  split; [exact N|]. intros m. rewrite I. simpl. tauto.
Qed.

Lemma merge_gpu_In (l : list string) (g m : string) :
  In m (merge_gpu l g) <-> In m l \/ g = m.
Proof.
  unfold merge_gpu. destruct (existsb _ _) eqn:E.
  - apply existsb_eqb_In in E. split; [auto|]. intros [H|<-]; assumption.
  - rewrite in_app_iff. simpl. tauto.
Qed.

Lemma merge_gpu_NoDup (l : list string) (g : string) :
  NoDup l -> NoDup (merge_gpu l g).
Proof.
  intros H. unfold merge_gpu. destruct (existsb _ _) eqn:E; [exact H|].
  apply NoDup_snoc; [exact H|]. intros Hin. apply existsb_eqb_In in Hin. congruence.
Qed.

Lemma fold_merge_gpu (l acc : list string) :
  (NoDup acc -> NoDup (fold_left merge_gpu l acc)) /\
  (forall m, In m (fold_left merge_gpu l acc) <-> In m acc \/ In m l).
Proof.
  revert acc. induction l as [|g l IH]; intros acc; simpl.
  - split; [auto|]. intros m. tauto.
  - destruct (IH (merge_gpu acc g)) as [N I]. split.
    + intros H. apply N. apply merge_gpu_NoDup. exact H.
    + intros m. rewrite I, merge_gpu_In. tauto.
Qed.

Lemma gpu_collect_models (outcomes : list (option (list string))) (acc : list string) :
  NoDup acc ->
  NoDup (gpu_collect acc outcomes) /\
  (forall m, In m (gpu_collect acc outcomes) <->
             In m acc \/ exists l, In (Some l) outcomes /\ In m l).
Proof.
  revert acc. induction outcomes as [|[l|] rest IH]; intros acc Hacc; simpl.
  - split; [exact Hacc|]. intros m. split; [auto|]. intros [H|[l [[] _]]]. exact H.
  - destruct (fold_merge_gpu l acc) as [FN FI].
    destruct (IH _ (FN Hacc)) as [N I]. split; [exact N|]. intros m.
    rewrite I, FI. split.
    + intros [[H|H]|[l' [Hl' H]]]; [left; exact H|right; exists l; auto|].
      right. exists l'. auto.
    + intros [H|[l' [[Hl'|Hl'] H]]]; [left; left; exact H| |].
      * injection Hl' as <-. left. right. exact H.
      * right. exists l'. auto.
  - destruct (IH _ Hacc) as [N I]. split; [exact N|]. intros m.
    rewrite I. split.
    + intros [H|[l' [Hl' H]]]; [left; exact H|]. right. exists l'. auto.
    + intros [H|[l' [[Hl'|Hl'] H]]]; [left; exact H|discriminate|].
      right. exists l'. auto.
Qed.

(** X6.  [get_gpu_info] lists each GPU model at most once, and the models
    it lists are exactly those returned by the probes that did not raise. *)
Theorem X6_gpu_models_exact :
  forall outcomes : list (option (list string)),
  NoDup (get_gpu_info outcomes) /\
  (forall m, In m (get_gpu_info outcomes) <->
             exists l, In (Some l) outcomes /\ In m l).
Proof.
  intros outcomes. unfold get_gpu_info.
  destruct (gpu_collect_models outcomes [] (NoDup_nil _)) as [N I].
  split; [exact N|]. intros m. rewrite I. simpl. tauto.
Qed.

(** [e'] carries [e]'s model and at least its known type and free space. *)
Definition disk_dominated (e e' : disk) : Prop :=
  dmodel e' = dmodel e /\
  (dtype e <> NA -> dtype e' <> NA) /\
  (dfree_space e <> NA -> dfree_space e' <> NA).

Lemma disk_dominated_refl (e : disk) : disk_dominated e e.
Proof. repeat split; auto. Qed.

Lemma disk_dominated_trans (a b c : disk) :
  disk_dominated a b -> disk_dominated b c -> disk_dominated a c.
Proof. unfold disk_dominated. intuition congruence. Qed.

Lemma disk_fill_dominates_existing (e d : disk) : disk_dominated e (disk_fill e d).
Proof.
  unfold disk_dominated, disk_fill; simpl. split; [reflexivity|].
  split; intros H;
    [destruct (String.eqb_spec (dtype d) NA), (String.eqb_spec (dtype e) NA)
    |destruct (String.eqb_spec (dfree_space d) NA), (String.eqb_spec (dfree_space e) NA)];
    simpl; congruence.
Qed.

Lemma disk_fill_dominates_new (e d : disk) :
  dmodel e = dmodel d -> disk_dominated d (disk_fill e d).
Proof.
  intros Hm. unfold disk_dominated, disk_fill; simpl. split; [exact Hm|].
  split; intros H;
    [destruct (String.eqb_spec (dtype d) NA), (String.eqb_spec (dtype e) NA)
    |destruct (String.eqb_spec (dfree_space d) NA), (String.eqb_spec (dfree_space e) NA)];
    simpl; congruence.
Qed.

Lemma merge_disk_keeps (acc : list disk) (d e : disk) :
  In e acc -> exists e', In e' (merge_disk acc d) /\ disk_dominated e e'.
Proof.
  induction acc as [|e0 acc IH]; simpl; [intros []|]. intros [E|H].
  - subst e0. destruct (String.eqb (dmodel e) (dmodel d)).
    + exists (disk_fill e d). split; [left; reflexivity|apply disk_fill_dominates_existing].
    + exists e. split; [left; reflexivity|apply disk_dominated_refl].
  - destruct (String.eqb (dmodel e0) (dmodel d)).
    + exists e. split; [right; exact H|apply disk_dominated_refl].
    + destruct (IH H) as [e' [He' D]]. exists e'. split; [right; exact He'|exact D].
Qed.

Lemma merge_disk_adds (acc : list disk) (d : disk) :
  exists e', In e' (merge_disk acc d) /\ disk_dominated d e'.
Proof.
  induction acc as [|e0 acc IH]; simpl.
  - exists d. split; [left; reflexivity|apply disk_dominated_refl].
  - destruct (String.eqb_spec (dmodel e0) (dmodel d)) as [E|E].
    + exists (disk_fill e0 d). split; [left; reflexivity|].
      apply disk_fill_dominates_new. exact E.
    + destruct IH as [e' [He' D]]. exists e'. split; [right; exact He'|exact D].
Qed.

Lemma fold_merge_disk_keeps (l acc : list disk) (x : disk) :
  (exists e, In e acc /\ disk_dominated x e) \/ In x l ->
  exists e, In e (fold_left merge_disk l acc) /\ disk_dominated x e.
Proof.
  revert acc. induction l as [|d l IH]; intros acc H; simpl.
  - destruct H as [H|[]]. exact H.
  - apply IH. destruct H as [[e [He D]]|[E|H]].
    + left. destruct (merge_disk_keeps acc d e He) as [e' [He' D']].
      exists e'. split; [exact He'|exact (disk_dominated_trans _ _ _ D D')].
    + subst d. left. exact (merge_disk_adds acc x).
    + right. exact H.
Qed.

Lemma disk_collect_keeps (outcomes : list (option (list disk))) (acc : list disk) (x : disk) :
  (exists e, In e acc /\ disk_dominated x e) \/
  (exists l, In (Some l) outcomes /\ In x l) ->
  exists e, In e (disk_collect acc outcomes) /\ disk_dominated x e.
Proof.
  revert acc. induction outcomes as [|[l|] rest IH]; intros acc H; simpl.
  - destruct H as [H|[l [[] _]]]. exact H.
  - apply IH. destruct H as [H|[l' [[Hl'|Hl'] Hx]]].
    + left. apply fold_merge_disk_keeps. left. exact H.
    + injection Hl' as <-. left. apply fold_merge_disk_keeps. right. exact Hx.
    + right. exists l'. auto.
  - apply IH. destruct H as [H|[l' [[Hl'|Hl'] Hx]]]; [left; exact H|discriminate|].
    right. exists l'. auto.
Qed.

(** X7.  No disk detail is lost in [get_disk_info]: for every disk returned
    by a probe that did not raise, the output has an entry with the same
    model whose type and free space are known ([<> "Não disponível"])
    whenever that disk's were. *)
Theorem X7_disk_details_never_lost :
  forall (outcomes : list (option (list disk))) (l : list disk) (d : disk),
  In (Some l) outcomes -> In d l ->
  exists e, In e (get_disk_info outcomes) /\ dmodel e = dmodel d /\
            (dtype d <> NA -> dtype e <> NA) /\
            (dfree_space d <> NA -> dfree_space e <> NA).
Proof.
  intros outcomes l d Hl Hd. unfold get_disk_info.
  apply disk_collect_keeps. right. exists l. auto.
Qed.

Lemma X7_disk_details_never_lost_witness :
  exists e, In e (get_disk_info
    [Some [mk_disk "ST1000" NA "931.51 GB" NA];
     Some [mk_disk "ST1000" "HDD" "931.51 GB" "120.00 GB"]]) /\
    dmodel e = "ST1000" /\
    ("HDD" <> NA -> dtype e <> NA) /\ ("120.00 GB" <> NA -> dfree_space e <> NA).
Proof.
  apply (X7_disk_details_never_lost _ [mk_disk "ST1000" "HDD" "931.51 GB" "120.00 GB"]
           (mk_disk "ST1000" "HDD" "931.51 GB" "120.00 GB")); simpl; auto.
Defined.

Lemma dict_get_set_any {V : Type} (d : list (string * V)) (k k' : string) (v : V) :
  dict_get (dict_set d k v) k' = if String.eqb k k' then Some v else dict_get d k'.
Proof.
  induction d as [|[k0 v0] d IH]; simpl.
  - rewrite String.eqb_sym. reflexivity.
  - destruct (String.eqb_spec k0 k) as [E0|E0].
    + subst k0. simpl. destruct (String.eqb k k'); reflexivity.
    + simpl. rewrite IH. destruct (String.eqb_spec k0 k') as [E1|E1]; [|reflexivity].
      subst k0. destruct (String.eqb_spec k k'); [congruence|reflexivity].
Qed.

Lemma bt_wmic_row_nonempty (ni si : Z) (line name status : string) :
  bt_wmic_row ni si line = Some (name, status) -> name <> "" /\ status <> "".
Proof.
  unfold bt_wmic_row. destruct (String.eqb (strip line) ""); [discriminate|].
  destruct (_ && _ && _); [|discriminate]. cbv zeta.
  destruct (if (ni <? si)%Z then _ else _) as [a b]. simpl.
  destruct (String.eqb_spec a "") as [Ea|Ea]; [discriminate|].
  intros H. injection H as <- <-. split; [exact Ea|].
  destruct (String.eqb_spec b "") as [Eb|Eb]; [discriminate|exact Eb].
Qed.

Lemma bt_wmic_rows_shape (ni si : Z) (lines : list string) :
  bt_wmic_rows ni si lines = bt_init \/
  exists name status, bt_wmic_rows ni si lines =
                      [("device_name", name); ("device_status", status)] /\
                      name <> "" /\ status <> "".
Proof.
  induction lines as [|line rest IH]; simpl; [left; reflexivity|].
  destruct (bt_wmic_row ni si line) as [[name status]|] eqn:E; [|exact IH].
  right. exists name, status. split; [reflexivity|].
  exact (bt_wmic_row_nonempty _ _ _ _ _ E).
Qed.

(** X8.  The WMIC Bluetooth probe reports either nothing (both fields
    ["Não disponível"]) or a device with a non-empty name and a non-empty
    status: a blank status column becomes ["Desconhecido"] and a row with
    a blank name is skipped. *)
Theorem X8_bt_wmic_device_complete :
  forall (is_windows : bool) (o : cmd_outcome),
  bt_wmic is_windows o = bt_init \/
  exists name status, bt_wmic is_windows o =
                      [("device_name", name); ("device_status", status)] /\
                      name <> "" /\ status <> "".
Proof.
  intros is_windows o. unfold bt_wmic.
  destruct is_windows; simpl; [|left; reflexivity].
  destruct o as [output| | | |]; try (left; reflexivity).
  destruct (split_lines (strip output)) as [|header [|l rest]]; try (left; reflexivity).
  apply bt_wmic_rows_shape.
Qed.

(** X9.  The WMI Bluetooth probe never reports an empty device status: a
    device whose [Status] is [None] or empty is reported as
    ["Desconhecido"]. *)
Theorem X9_bt_wmi_status_nonempty :
  forall (client_ok is_windows : bool) (devices : option (list pnp)),
  dict_get (bt_wmi client_ok is_windows devices) "device_status" <> Some "".
Proof.
  intros client_ok is_windows devices. unfold bt_wmi.
  destruct (negb client_ok || negb is_windows); [simpl; unfold NA; congruence|].
  destruct devices as [ds|]; [|simpl; unfold NA; congruence].
  induction ds as [|d ds IH]; simpl; [unfold NA; congruence|].
  destruct (pnp_has_attrs d); [|exact IH].
  destruct (_ || _); [|exact IH].
  simpl. destruct (pnp_Status d) as [s|]; simpl; [|congruence].
  destruct (String.eqb_spec s ""); simpl; congruence.
Qed.

Lemma bt_status_not_OK (v : jval) : bt_status v <> JStr "OK".
Proof.
  destruct v; simpl; try discriminate.
  destruct (String.eqb_spec s "OK"); congruence.
Qed.

Lemma bt_text_line_not_OK (r : list (string * jval)) (line : string) :
  dict_get r "device_status" <> Some (JStr "OK") ->
  dict_get (bt_text_line r line) "device_status" <> Some (JStr "OK").
Proof.
  intros H. unfold bt_text_line.
  destruct (_ && _); [rewrite dict_get_set_any; exact H|].
  destruct (_ && _); [|exact H].
  rewrite dict_get_set_any. simpl.
  destruct (String.eqb_spec (strip (after_colon line)) "OK"); congruence.
Qed.

(** X10.  The PowerShell Bluetooth probe never reports the raw status
    ["OK"]: in the JSON and in the text fallback alike it becomes
    ["Ativo"]. *)
Theorem X10_bt_powershell_never_raw_OK :
  forall (is_windows : bool) (o : ps_outcome),
  dict_get (bt_powershell is_windows o) "device_status" <> Some (JStr "OK").
Proof.
  intros is_windows o.
  assert (Hinit : dict_get bt_ps_init "device_status" <> Some (JStr "OK"))
    by (simpl; unfold NA; congruence).
  unfold bt_powershell. destruct (negb is_windows); [exact Hinit|].
  destruct o as [rc stdout json| | |]; try exact Hinit.
  destruct (_ && _); [|exact Hinit].
  destruct json as [[data|]|]; [| exact Hinit |].
  - unfold bt_json.
    destruct (member_truthy data "Status") as [v|].
    + rewrite dict_get_set_any. simpl. intros H. injection H as H.
      exact (bt_status_not_OK v H).
    + destruct (member_truthy data "Name"); [rewrite dict_get_set_any; exact Hinit|exact Hinit].
  - generalize bt_ps_init Hinit. induction (split_lines (strip stdout)) as [|l ls IH];
      intros r Hr; simpl; [exact Hr|].
    apply IH. apply bt_text_line_not_OK. exact Hr.
Qed.

Lemma netsh_line_no_colon (st : string * string * string) (line : string) :
  (starts_with "Name" (strip line) || starts_with "State" (strip line) ||
   starts_with "SSID" (strip line)) = true ->
  contains ":" (strip line) = false ->
  netsh_line st line = None.
Proof.
  intros Hs Hc. destruct st as [[a s] ss]. unfold netsh_line, colon_value.
  rewrite Hc.
  destruct (starts_with "Name" (strip line)), (starts_with "State" (strip line)),
    (starts_with "SSID" (strip line)); simpl in *; try reflexivity; discriminate.
Qed.

(** X12.  A netsh line that starts with [Name], [State] or [SSID] but has
    no [":"] makes [line.split(":", 1)[1]] raise, and the probe then
    reports nothing, whatever the other lines say. *)
Theorem X12_netsh_line_without_colon_unavailable :
  forall (output line : string),
  In line (split_lines (strip output)) ->
  (starts_with "Name" (strip line) || starts_with "State" (strip line) ||
   starts_with "SSID" (strip line)) = true ->
  contains ":" (strip line) = false ->
  wifi_netsh true (CmdOk output) = wifi_init.
Proof.
  intros output line Hin Hs Hc. unfold wifi_netsh. simpl.
  assert (H : forall lines st, In line lines -> netsh_lines st lines = None).
  { induction lines as [|l lines IH]; intros st Hl; [destruct Hl|]. simpl.
    destruct Hl as [E|Hl].
    - subst l. rewrite (netsh_line_no_colon st line Hs Hc). reflexivity.
    - destruct (netsh_line st l); [apply IH; exact Hl|reflexivity]. }
  rewrite (H _ _ Hin). reflexivity.
Qed.

Lemma X12_netsh_line_without_colon_unavailable_witness :
  wifi_netsh true (CmdOk ("Name : Wi-Fi" ++ String nl "SSID MyNet")) = wifi_init.
Proof.
  apply (X12_netsh_line_without_colon_unavailable _ "SSID MyNet");
    vm_compute; [right; left; reflexivity|reflexivity|reflexivity].
Defined.

Lemma resolution_not_NA (a b : string) : a ++ "x" ++ b <> NA.
Proof.
  intros H.
  assert (Hx : In "x"%char (list_ascii_of_string (a ++ "x" ++ b))).
  { clear H. induction a as [|c a IH]; simpl; [left; reflexivity|right; exact IH]. }
  rewrite H in Hx. vm_compute in Hx.
  repeat (destruct Hx as [Hx|Hx]; [discriminate Hx|]). exact Hx.
Qed.

(** X13.  [get_display_info] reports ["Não disponível"] exactly when no
    monitor can be read: [screeninfo] is missing, [get_monitors()] raises,
    or it returns no monitor. *)
Theorem X13_display_unavailable_iff_no_monitor :
  forall (screeninfo_ok : bool) (monitors : option (list monitor)),
  dict_get (get_display_info screeninfo_ok monitors) "resolution" = Some NA <->
  (screeninfo_ok = false \/ monitors = None \/ monitors = Some []).
Proof.
  intros ok ms. unfold get_display_info.
  destruct ok; simpl; [|split; auto].
  destruct ms as [[|m ms]|]; simpl; [split; auto| |split; auto].
  assert (Hr : forall m', Some (str_of_Z (width m') ++ "x" ++ str_of_Z (height m')) <> Some NA)
    by (intros m' E; injection E as E; exact (resolution_not_NA _ _ E)).
  destruct (if is_primary m then Some m else find_primary ms) as [m'|];
    simpl; (split; [intros E; exfalso; exact (Hr _ E)|intros [E|[E|E]]; discriminate]).
Qed.

Lemma find_primary_exists (ms : list monitor) :
  (exists m, In m ms /\ is_primary m = true) ->
  exists m, find_primary ms = Some m /\ In m ms /\ is_primary m = true.
Proof.
  induction ms as [|m0 ms IH]; simpl; [intros [m [[] _]]|].
  intros Hex. destruct (is_primary m0) eqn:P.
  - exists m0. auto.
  - destruct IH as [m [Hf [Hin Hp]]].
    + destruct Hex as [m [[<-|Hin] Hp]]; [congruence|]. exists m. auto.
    + exists m. auto.
Qed.

(** X14.  When a primary monitor is present, [get_display_info] reports
    the resolution of a primary monitor, as ["<width>x<height>"], not that
    of the first monitor listed. *)
Theorem X14_display_prefers_primary :
  forall monitors : list monitor,
  (exists m, In m monitors /\ is_primary m = true) ->
  exists m, In m monitors /\ is_primary m = true /\
    dict_get (get_display_info true (Some monitors)) "resolution" =
    Some (str_of_Z (width m) ++ "x" ++ str_of_Z (height m)).
Proof.
  intros ms Hex. destruct (find_primary_exists ms Hex) as [m [Hf [Hin Hp]]].
  exists m. split; [exact Hin|]. split; [exact Hp|].
  unfold get_display_info. simpl. rewrite Hf. reflexivity.
Qed.

Lemma X14_display_prefers_primary_witness :
  exists m, In m [mk_monitor 1920 1080 false; mk_monitor 2560 1440 true] /\
    is_primary m = true /\
    dict_get (get_display_info true
                (Some [mk_monitor 1920 1080 false; mk_monitor 2560 1440 true]))
      "resolution" = Some (str_of_Z (width m) ++ "x" ++ str_of_Z (height m)).
Proof.
  apply X14_display_prefers_primary.
  exists (mk_monitor 2560 1440 true). simpl. auto.
Defined.

(** [slots_used] is the number of listed modules, or ["Não disponível"]
    with no module listed. *)
Definition ram_consistent (r : ram_info) : Prop :=
  (slots_used r = NA /\ modules r = []) \/
  (modules r <> [] /\ slots_used r = str_of_Z (Z.of_nat (length (modules r)))).

Lemma digits_fuel_head (f n : nat) (acc : string) :
  exists c rest, digits_fuel (S f) n acc = String c rest /\
                 (48 <= nat_of_ascii c <= 57)%nat.
Proof.
  revert n acc. induction f as [|f IH]; intros n acc;
    assert (Hd : (48 <= nat_of_ascii (ascii_of_nat (48 + n mod 10)) <= 57)%nat)
      by (pose proof (Nat.mod_upper_bound n 10);
          rewrite Ascii.nat_ascii_embedding; lia).
  - change (digits_fuel 1 n acc) with
      (if (n <? 10)%nat then String (ascii_of_nat (48 + n mod 10)) acc
       else String (ascii_of_nat (48 + n mod 10)) acc).
    destruct (n <? 10)%nat; eexists; eexists; (split; [reflexivity|exact Hd]).
  - change (digits_fuel (S (S f)) n acc) with
      (if (n <? 10)%nat then String (ascii_of_nat (48 + n mod 10)) acc
       else digits_fuel (S f) (n / 10) (String (ascii_of_nat (48 + n mod 10)) acc)).
    destruct (n <? 10)%nat; [|apply IH].
    eexists; eexists; split; [reflexivity|exact Hd].
Qed.

Lemma str_of_nat_valid (n : nat) : valid (str_of_Z (Z.of_nat n)) = true.
Proof.
  unfold str_of_Z. destruct (Z.ltb_spec (Z.of_nat n) 0); [lia|].
  destruct (digits_fuel_head (Z.to_nat (Z.of_nat n)) (Z.to_nat (Z.of_nat n)) "")
    as [c [rest [-> Hc]]].
  destruct (Ascii.eqb_spec c "N"%char) as [->|Ne];
    [change (nat_of_ascii "N"%char) with 78%nat in Hc; lia|].
  assert (E : String.eqb (String c rest) NA = false).
  { apply String.eqb_neq. intros E. injection E as E0 _. exact (Ne E0). }
  unfold valid. rewrite E. reflexivity.
Qed.

Lemma ram_merge_consistent (r p : ram_info) :
  ram_consistent r -> ram_consistent p -> ram_consistent (ram_merge r p).
Proof.
  intros Hr [[Hs Hm]|[Hm Hs]]; unfold ram_merge, ram_consistent in *; simpl.
  - rewrite Hs, Hm. simpl. exact Hr.
  - rewrite Hs, str_of_nat_valid.
    destruct (modules p) as [|m ms]; [congruence|]. right. split; [exact Hm|reflexivity].
Qed.

(** X16.  [get_ram_info] keeps [slots_used] in step with the module list
    when every probe that returns does (as the WMI, WMIC, CIM and psutil
    probes do): the two are always replaced together, since a valid slot
    count comes with a non-empty module list. *)
Theorem X16_ram_collect_slots_count_modules :
  forall outcomes : list (option ram_info),
  (forall p, In (Some p) outcomes -> ram_consistent p) ->
  ram_consistent (get_ram_info outcomes).
Proof.
  intros outcomes. unfold get_ram_info.
  assert (H : forall r, ram_consistent r ->
              (forall p, In (Some p) outcomes -> ram_consistent p) ->
              ram_consistent (ram_collect r outcomes)).
  { induction outcomes as [|[p|] rest IH]; intros r Hr Hp; simpl; [exact Hr| |].
    - assert (Hm : ram_consistent (ram_merge r p))
        by (apply ram_merge_consistent; [exact Hr|apply Hp; left; reflexivity]).
      destruct (ram_complete _); [exact Hm|].
      apply IH; [exact Hm|]. intros q Hq. apply Hp. right. exact Hq.
    - apply IH; [exact Hr|]. intros q Hq. apply Hp. right. exact Hq. }
  intros Hp. apply H; [left; split; reflexivity|exact Hp].
Qed.

Lemma X16_ram_collect_slots_count_modules_witness :
  ram_consistent (get_ram_info
    [Some (mk_ram NA "1" [[("size", "8.0 GB")]]); None;
     Some (mk_ram "15.86 GB" NA [])]).
Proof.
  apply X16_ram_collect_slots_count_modules.
  intros p Hp. simpl in Hp.
  destruct Hp as [Hp|[Hp|[Hp|[]]]]; try discriminate; injection Hp as <-.
  - right. split; [discriminate|reflexivity].
  - left. split; reflexivity.
Defined.

Lemma dict_set_Forall_kv {V : Type} (P : string * V -> Prop)
  (d : list (string * V)) (k : string) (v : V) :
  Forall P d -> P (k, v) -> Forall P (dict_set d k v).
Proof.
  intros Hd Hv. induction Hd as [|[k0 v0] d H0 Hd' IH]; simpl.
  - repeat constructor. exact Hv.
  - destruct (String.eqb_spec k0 k) as [->|_]; constructor; auto.
Qed.

Lemma dict_get_In {V : Type} (d : list (string * V)) (k : string) (v : V) :
  dict_get d k = Some v -> In (k, v) d.
Proof.
  induction d as [|[k0 v0] d IH]; simpl; [discriminate|].
  destruct (String.eqb_spec k0 k) as [->|_]; [intros H; injection H as ->; left; reflexivity|].
  intros H. right. exact (IH H).
Qed.

Lemma collect_Forall (P : string * string -> Prop) (init : dict)
  (outcomes : list (option dict)) :
  Forall P init -> (forall p, In (Some p) outcomes -> Forall P p) ->
  Forall P (collect init outcomes).
Proof.
  assert (Hm : forall p r, Forall P r -> Forall P p -> Forall P (merge_probe r p)).
  { induction p as [|kv p IH]; intros r Hr Hp; [exact Hr|].
    rewrite merge_probe_cons. inversion Hp as [|? ? Hkv Hp']; subst.
    apply IH; [|exact Hp'].
    destruct (valid (snd kv)); [|exact Hr].
    apply dict_set_Forall_kv; [exact Hr|destruct kv; exact Hkv]. }
  revert init. induction outcomes as [|[p|] rest IH]; intros init Hi Ho; simpl; [exact Hi| |].
  - assert (Hp : Forall P p) by (apply Ho; left; reflexivity).
    assert (Ho' : forall q, In (Some q) rest -> Forall P q)
      by (intros q Hq; apply Ho; right; exact Hq).
    destruct p as [|kv p]; [exact (IH _ Hi Ho')|].
    cbv zeta. destruct (all_resolved _); [exact (Hm _ _ Hi Hp)|].
    exact (IH _ (Hm _ _ Hi Hp) Ho').
  - apply IH; [exact Hi|]. intros q Hq. apply Ho. right. exact Hq.
Qed.

(** The ["brand"] entry, if any, is one of the three values the probes
    write. *)
Definition brand_ok (kv : string * string) : Prop :=
  fst kv = "brand" -> snd kv = "Intel" \/ snd kv = "AMD" \/ snd kv = NA.

Lemma cpu_init_brand_ok : Forall brand_ok cpu_init.
Proof. repeat constructor; unfold brand_ok; simpl; auto; discriminate. Qed.

Lemma cpu_split_brand_ok (r : dict) (full_name : string) :
  Forall brand_ok r -> Forall brand_ok (cpu_split r full_name).
Proof.
  intros Hr.
  assert (Hmodel : forall v, brand_ok ("model", v)) by (intros v H; discriminate H).
  unfold cpu_split.
  destruct (contains "Intel" full_name);
    [|destruct (contains "AMD" full_name)];
    repeat (apply dict_set_Forall_kv; [|try apply Hmodel]); try exact Hr;
    intros _; simpl; auto.
Qed.

Lemma cpu_probes_brand_ok (cpuinfo_ok client_ok is_windows winreg_ok : bool)
  (info : option (option string)) (names : option (list (option string)))
  (o_wmic o_reg : cmd_outcome) :
  Forall brand_ok (cpu_cpuinfo cpuinfo_ok info) /\
  Forall brand_ok (cpu_wmi client_ok is_windows names) /\
  Forall brand_ok (cpu_wmic is_windows o_wmic) /\
  Forall brand_ok (cpu_registry is_windows winreg_ok o_reg).
Proof.
  pose proof cpu_init_brand_ok as Hi.
  split; [|split; [|split]].
  - unfold cpu_cpuinfo. destruct (negb cpuinfo_ok); [exact Hi|].
    destruct info as [b|]; [|exact Hi].
    destruct (truthy b); [apply cpu_split_brand_ok; exact Hi|exact Hi].
  - unfold cpu_wmi. destruct (_ || _); [exact Hi|].
    destruct names as [ns|]; [|exact Hi].
    revert Hi. generalize cpu_init.
    induction ns as [|n ns IH]; intros r Hr; simpl; [exact Hr|].
    pose proof (cpu_split_brand_ok r (if truthy n then opt_str n else "") Hr) as Hs.
    destruct (negb _); [exact Hs|exact (IH _ Hs)].
  - unfold cpu_wmic. destruct (negb is_windows); [exact Hi|].
    destruct o_wmic as [output| | | |]; try exact Hi.
    destruct (split_lines (strip output)) as [|? [|l1 ?]]; try exact Hi.
    apply cpu_split_brand_ok. exact Hi.
  - unfold cpu_registry. destruct (_ || _); [exact Hi|].
    destruct o_reg as [output| | | |]; try exact Hi.
    revert Hi. generalize cpu_init.
    induction (split_lines (strip output)) as [|l ls IH]; intros r Hr; simpl; [exact Hr|].
    apply IH. destruct (_ && _); [|exact Hr].
    destruct (split_sep "REG_SZ" l) as [|? [|p1 ?]]; try exact Hr.
    apply cpu_split_brand_ok. exact Hr.
Qed.

(** X17.  [get_cpu_info], run over its four probes, reports the brand
    ["Intel"], ["AMD"] or ["Não disponível"] and nothing else: a processor
    of any other vendor keeps an unavailable brand. *)
Theorem X17_cpu_brand_intel_amd_or_unavailable :
  forall (cpuinfo_ok client_ok is_windows winreg_ok : bool)
         (info : option (option string)) (names : option (list (option string)))
         (o_wmic o_reg : cmd_outcome) (brand : string),
  dict_get (get_cpu_info [Some (cpu_cpuinfo cpuinfo_ok info);
                          Some (cpu_wmi client_ok is_windows names);
                          Some (cpu_wmic is_windows o_wmic);
                          Some (cpu_registry is_windows winreg_ok o_reg)]) "brand"
    = Some brand ->
  brand = "Intel" \/ brand = "AMD" \/ brand = NA.
Proof.
  intros cpuinfo_ok client_ok is_windows winreg_ok info names o_wmic o_reg brand H.
  destruct (cpu_probes_brand_ok cpuinfo_ok client_ok is_windows winreg_ok info names
              o_wmic o_reg) as [H1 [H2 [H3 H4]]].
  assert (Hc : Forall brand_ok (get_cpu_info
                 [Some (cpu_cpuinfo cpuinfo_ok info);
                  Some (cpu_wmi client_ok is_windows names);
                  Some (cpu_wmic is_windows o_wmic);
                  Some (cpu_registry is_windows winreg_ok o_reg)])).
  { apply collect_Forall; [exact cpu_init_brand_ok|].
    intros p Hp. simpl in Hp.
    destruct Hp as [Hp|[Hp|[Hp|[Hp|[]]]]]; injection Hp as <-; assumption. }
  rewrite Forall_forall in Hc. exact (Hc _ (dict_get_In _ _ _ H) eq_refl).
Qed.

Lemma X17_cpu_brand_intel_amd_or_unavailable_witness :
  dict_get (get_cpu_info [Some (cpu_cpuinfo true (Some (Some "VIA Nano U2250")));
                          Some (cpu_wmi false true None);
                          Some (cpu_wmic false CmdTimeout);
                          Some (cpu_registry false true CmdTimeout)]) "brand"
    = Some NA /\
  (NA = "Intel" \/ NA = "AMD" \/ NA = NA).
Proof.
  split; [vm_compute; reflexivity|].
  apply (X17_cpu_brand_intel_amd_or_unavailable true false false true
           (Some (Some "VIA Nano U2250")) None CmdTimeout CmdTimeout).
  vm_compute. reflexivity.
Defined.

Lemma dict_set_keys_any {V : Type} (d : list (string * V)) (k : string) (v : V) :
  map fst (dict_set d k v) =
  if existsb (String.eqb k) (map fst d) then map fst d else (map fst d ++ [k])%list.
Proof.
  induction d as [|[k0 v0] d IH]; [reflexivity|]. simpl.
  rewrite (String.eqb_sym k k0).
  destruct (String.eqb_spec k0 k) as [->|_]; simpl; [reflexivity|].
  rewrite IH. destruct (existsb _ _); reflexivity.
Qed.

Lemma dict_set_keys_NoDup {V : Type} (d : list (string * V)) (k : string) (v : V) :
  NoDup (map fst d) ->
  NoDup (map fst (dict_set d k v)) /\
  (forall n, In n (map fst (dict_set d k v)) <-> In n (map fst d) \/ k = n).
Proof.
  intros H. rewrite dict_set_keys_any. destruct (existsb _ _) eqn:E.
  - apply existsb_eqb_In in E. split; [exact H|]. intros n. split; [auto|].
    intros [Hn|<-]; assumption.
  - split.
    + apply NoDup_snoc; [exact H|]. intros Hin. apply existsb_eqb_In in Hin. congruence.
    + intros n. rewrite in_app_iff. simpl. tauto.
Qed.

Lemma add_tests_keys (runs : list (string * test_result * string)) (g : report_generator) :
  map fst (test_results g) = map fst (test_details g) ->
  NoDup (map fst (test_results g)) ->
  map fst (test_results (add_tests g runs)) = map fst (test_details (add_tests g runs)) /\
  NoDup (map fst (test_results (add_tests g runs))) /\
  (forall n, In n (map fst (test_results (add_tests g runs))) <->
             In n (map fst (test_results g)) \/ In n (map (fun r => fst (fst r)) runs)).
Proof.
  unfold add_tests. revert g.
  induction runs as [|[[n res] f] runs IH]; intros g Hk Hn; simpl.
  - split; [exact Hk|]. split; [exact Hn|]. intros m. tauto.
  - destruct (dict_set_keys_NoDup (test_results g) n res Hn) as [Hn' Hi'].
    destruct (IH (add_test_result g n res f)) as [A [B C]]; simpl.
    + rewrite !dict_set_keys_any, Hk. reflexivity.
    + exact Hn'.
    + split; [exact A|]. split; [exact B|]. intros m. rewrite C, Hi'. tauto.
Qed.

(** X19.  A [ReportGenerator] keeps one entry per test name: after any
    sequence of [add_test_result] calls, [test_results] and
    [test_details] have the same names in the same order, no name twice,
    and exactly the names added; re-running a test replaces its entry. *)
Theorem X19_report_one_entry_per_test :
  forall runs : list (string * test_result * string),
  map fst (test_results (add_tests rg_init runs)) =
    map fst (test_details (add_tests rg_init runs)) /\
  NoDup (map fst (test_results (add_tests rg_init runs))) /\
  (forall n, In n (map fst (test_results (add_tests rg_init runs))) <->
             In n (map (fun r => fst (fst r)) runs)).
Proof.
  intros runs.
  destruct (add_tests_keys runs rg_init eq_refl (NoDup_nil _)) as [A [B C]].
  split; [exact A|]. split; [exact B|]. intros n. rewrite C. simpl. tauto.
Qed.

Ltac find_line :=
  match goal with
  | |- In _ (_ ++ _) => apply in_or_app; first [left; find_line | right; find_line]
  | |- In _ (_ :: _) => first [left; reflexivity | right; find_line]
  end.

(** X20.  Once at least one test has been added, the report's summary
    gives a total equal to the number of distinct test names added, a
    success count [s] no larger than it, and the failure count [total - s]
    (never negative). *)
Theorem X20_report_summary_counts :
  forall (system release version machine node : string) (fmt_rate : nat -> nat -> string)
         (runs : list (string * test_result * string))
         (hw : list (string * dict)) (id : dict),
  runs <> [] ->
  let total := length (nodup string_dec (map (fun r => fst (fst r)) runs)) in
  let lines := report_lines system release version machine node fmt_rate
                 (set_identification (set_hardware_info (add_tests rg_init runs) hw) id) in
  exists s, (s <= total)%nat /\
    In ("Total de Testes: " ++ str_nat total) lines /\
    In ("Testes com Sucesso: " ++ str_nat s) lines /\
    In ("Testes com Falha: " ++ str_nat (total - s)) lines.
Proof.
  intros system release version machine node fmt_rate runs hw id Hne total lines.
  destruct (add_tests_keys runs rg_init eq_refl (NoDup_nil _)) as [_ [Hnd Hin0]].
  remember (test_results (add_tests rg_init runs)) as tr eqn:Etr.
  assert (Hin : forall n, In n (map fst tr) <-> In n (map (fun r => fst (fst r)) runs))
    by (intros n; rewrite Hin0; simpl; tauto).
  assert (Ht : length tr = total).
  { unfold total. apply Nat.le_antisymm.
    - rewrite <- (length_map fst). apply NoDup_incl_length; [exact Hnd|].
      intros n Hn. apply nodup_In. apply Hin. exact Hn.
    - rewrite <- (length_map fst tr). apply NoDup_incl_length; [apply NoDup_nodup|].
      intros n Hn. apply Hin. apply nodup_In in Hn. exact Hn. }
  assert (Hs : (successful_tests tr <= length tr)%nat)
    by (unfold successful_tests; apply filter_length_le).
  exists (successful_tests tr). split; [rewrite <- Ht; exact Hs|].
  assert (Hfail : str_of_Z (Z.of_nat (length tr) - Z.of_nat (successful_tests tr)) =
                  str_nat (total - successful_tests tr))
    by (unfold str_nat; f_equal; rewrite <- Ht; lia).
  unfold lines, report_lines. simpl test_results. rewrite <- Etr.
  destruct tr as [|x tr'].
  - exfalso. destruct runs as [|[[n res] f] runs]; [exact (Hne eq_refl)|].
    apply (proj2 (Hin n)). left. reflexivity.
  - cbv beta iota zeta. rewrite Hfail, Ht. split; [|split]; find_line.
Qed.

Lemma X20_report_summary_counts_witness :
  [("Teclado", [("success", JBool true)], "Teclado: OK");
   ("Audio", [("success", JBool false)], "Audio: falha")] <> [] /\
  exists s, (s <= 2)%nat /\
    In ("Total de Testes: " ++ str_nat 2)
      (report_lines "Windows" "10" "10.0.19045" "AMD64" "BANCADA-01" (fun _ _ => "50.00")
         (set_identification
            (set_hardware_info
               (add_tests rg_init
                  [("Teclado", [("success", JBool true)], "Teclado: OK");
                   ("Audio", [("success", JBool false)], "Audio: falha")]) [])
            [])) /\
    In ("Testes com Sucesso: " ++ str_nat s)
      (report_lines "Windows" "10" "10.0.19045" "AMD64" "BANCADA-01" (fun _ _ => "50.00")
         (set_identification
            (set_hardware_info
               (add_tests rg_init
                  [("Teclado", [("success", JBool true)], "Teclado: OK");
                   ("Audio", [("success", JBool false)], "Audio: falha")]) [])
            [])) /\
    In ("Testes com Falha: " ++ str_nat (2 - s))
      (report_lines "Windows" "10" "10.0.19045" "AMD64" "BANCADA-01" (fun _ _ => "50.00")
         (set_identification
            (set_hardware_info
               (add_tests rg_init
                  [("Teclado", [("success", JBool true)], "Teclado: OK");
                   ("Audio", [("success", JBool false)], "Audio: falha")]) [])
            [])).
Proof.
  split; [discriminate|].
  apply (X20_report_summary_counts "Windows" "10" "10.0.19045" "AMD64" "BANCADA-01"
           (fun _ _ => "50.00")
           [("Teclado", [("success", JBool true)], "Teclado: OK");
            ("Audio", [("success", JBool false)], "Audio: falha")] [] []).
  discriminate.
Defined.

Definition report_categories : list string :=
  ["motherboard"; "cpu"; "ram"; "display"; "tpm"; "bluetooth"; "wifi"].

Lemma hardware_lines_other_key (hw : list (string * dict)) (k : string) (v : dict) :
  ~ In k report_categories -> hardware_lines (dict_set hw k v) = hardware_lines hw.
Proof.
  intros Hk. unfold hardware_lines, hw_block.
  rewrite !dict_get_set_any.
  assert (Hne : forall c, In c report_categories -> String.eqb k c = false)
    by (intros c Hc; apply String.eqb_neq; intros ->; exact (Hk Hc)).
  rewrite !Hne by (simpl; tauto). reflexivity.
Qed.

(** X21.  The report shows only the motherboard, CPU, RAM, display, TPM,
    Bluetooth and Wi-Fi categories: once the hardware info is non-empty,
    adding or changing any other category (such as ["disks"] or ["gpu"],
    which [get_all_info] collects) leaves the report unchanged. *)
Theorem X21_report_ignores_other_categories :
  forall (system release version machine node : string) (fmt_rate : nat -> nat -> string)
         (g : report_generator) (k : string) (v : dict),
  hardware_info g <> [] -> ~ In k report_categories ->
  report_content system release version machine node fmt_rate
    (set_hardware_info g (dict_set (hardware_info g) k v)) =
  report_content system release version machine node fmt_rate g.
Proof.
  intros system release version machine node fmt_rate g k v Hne Hk.
  unfold report_content, report_lines. simpl.
  destruct (hardware_info g) as [|[k0 v0] hw] eqn:E; [contradiction|].
  rewrite <- (hardware_lines_other_key ((k0, v0) :: hw) k v Hk).
  simpl dict_set. destruct (String.eqb k0 k); reflexivity.
Qed.

Lemma X21_report_ignores_other_categories_witness :
  report_content "Windows" "10" "10.0.19045" "AMD64" "BANCADA-01" (fun _ _ => "0.00")
    (set_hardware_info (mk_rg [("cpu", [("brand", "Intel")])] [] [] [])
       (dict_set [("cpu", [("brand", "Intel")])] "disks" [("model", "ST1000")])) =
  report_content "Windows" "10" "10.0.19045" "AMD64" "BANCADA-01" (fun _ _ => "0.00")
    (mk_rg [("cpu", [("brand", "Intel")])] [] [] []).
Proof.
  apply (X21_report_ignores_other_categories _ _ _ _ _ _
           (mk_rg [("cpu", [("brand", "Intel")])] [] [] []) "disks" [("model", "ST1000")]).
  - discriminate.
  - vm_compute. intros [H|[H|[H|[H|[H|[H|[H|H]]]]]]]; try discriminate; exact H.
Defined.

(** [gpu] raises in the loop of [_get_gpu_info_powershell]. *)
Definition gpu_entry_malformed (gpu : json_data) : bool :=
  match gpu with
  | JNonObject => true
  | JObject members =>
      match dict_get members "Name" with
      | None | Some (JStr _) => false
      | Some _ => true
      end
  end.

Lemma gpu_ps_items_cut (items1 items2 : list json_data) (bad : json_data)
  (acc : list string) :
  gpu_entry_malformed bad = true ->
  gpu_ps_items (items1 ++ bad :: items2) acc = gpu_ps_items items1 acc.
Proof.
  intros Hb. revert acc. induction items1 as [|[members|] items1 IH]; intros acc; simpl.
  - destruct bad as [members|]; [|reflexivity]. simpl in Hb.
    destruct (dict_get members "Name") as [[]|]; try discriminate; reflexivity.
  - destruct (dict_get members "Name") as [[]|]; try reflexivity; apply IH.
  - reflexivity.
Qed.

(** X22.  In the PowerShell GPU probe, an entry that is not a JSON object,
    or whose [Name] is not a string (e.g. [null]), raises inside the loop:
    the GPUs listed before it are kept, and it and every GPU after it are
    dropped. *)
Theorem X22_gpu_ps_malformed_entry_truncates :
  forall (stdout : string) (items1 items2 : list json_data) (bad : json_data),
  gpu_entry_malformed bad = true ->
  gpu_powershell true (PsListExited 0 stdout (Some (JArray (items1 ++ bad :: items2)))) =
  gpu_powershell true (PsListExited 0 stdout (Some (JArray items1))).
Proof.
  intros stdout items1 items2 bad Hb. unfold gpu_powershell. simpl.
  destruct (negb (String.eqb (strip stdout) "")); [|reflexivity].
  apply gpu_ps_items_cut. exact Hb.
Qed.

Lemma X22_gpu_ps_malformed_entry_truncates_witness :
  gpu_entry_malformed (JObject [("Name", JNull)]) = true /\
  gpu_powershell true
    (PsListExited 0 "[...]"
       (Some (JArray ([JObject [("Name", JStr "NVIDIA GeForce GTX 1650 ")]] ++
                      JObject [("Name", JNull)] ::
                      [JObject [("Name", JStr "Intel(R) UHD Graphics 630")]])))) =
  ["NVIDIA GeForce GTX 1650"].
Proof.
  split; [reflexivity|].
  rewrite (X22_gpu_ps_malformed_entry_truncates "[...]"
             [JObject [("Name", JStr "NVIDIA GeForce GTX 1650 ")]]
             [JObject [("Name", JStr "Intel(R) UHD Graphics 630")]]
             (JObject [("Name", JNull)]) eq_refl); vm_compute; reflexivity.
Defined.

Definition tpm_status_labels : list string :=
  [NA; "Habilitado"; "Desabilitado"; "Ativo"; "Inativo"; "Pronto"; "Não pronto"].

Ltac in_labels :=
  unfold tpm_status_labels; simpl;
  repeat (first [left; reflexivity | right]).

Lemma tpmtool_line_status (r : dict) (line : string) :
  In (dict_get r "status") (map Some tpm_status_labels) ->
  In (dict_get (tpmtool_line r line) "status") (map Some tpm_status_labels).
Proof.
  intros H. unfold tpmtool_line.
  destruct (contains "Spec Version:" line); [rewrite dict_get_set; exact H|].
  destruct (contains "TPM Enabled:" line).
  - rewrite dict_get_set. simpl. destruct (_ || _); in_labels.
  - destruct (contains "Manufacturer:" line); [rewrite dict_get_set|]; exact H.
Qed.

Lemma tpm_text_line_status (r : tpm_record) (line : string) :
  In (dict_get r "status") (map (fun s => Some (JStr s)) tpm_status_labels) ->
  In (dict_get (tpm_text_line r line) "status")
     (map (fun s => Some (JStr s)) tpm_status_labels).
Proof.
  intros H. unfold tpm_text_line.
  destruct (_ && _); [rewrite dict_get_set_any; exact H|].
  destruct (_ && _).
  - rewrite dict_get_set_any. simpl. destruct (String.eqb _ "true"); in_labels.
  - destruct (_ && _); [rewrite dict_get_set_any; exact H|].
    destruct (_ && _); [rewrite dict_get_set_any|]; exact H.
Qed.

(** X23.  Each TPM probe reports the status only as one of the labels
    ["Não disponível"], ["Habilitado"], ["Desabilitado"], ["Ativo"],
    ["Inativo"], ["Pronto"] and ["Não pronto"], never as the raw value it
    read. *)
Theorem X23_tpm_status_labels :
  forall (client_ok is_windows : bool) (tpms : option (list tpm_instance))
         (o_tool : cmd_outcome) (o_ps : ps_outcome),
  In (dict_get (tpm_wmi client_ok is_windows tpms) "status") (map Some tpm_status_labels) /\
  In (dict_get (tpm_tpmtool is_windows o_tool) "status") (map Some tpm_status_labels) /\
  In (dict_get (tpm_powershell is_windows o_ps) "status")
     (map (fun s => Some (JStr s)) tpm_status_labels).
Proof.
  intros client_ok is_windows tpms o_tool o_ps.
  assert (Hi : In (dict_get tpm_init "status") (map Some tpm_status_labels))
    by in_labels.
  assert (Hp : In (dict_get tpm_ps_init "status")
                  (map (fun s => Some (JStr s)) tpm_status_labels)) by in_labels.
  split; [|split].
  - unfold tpm_wmi. destruct (_ || _); [exact Hi|].
    destruct tpms as [[|tpm rest]|]; try exact Hi.
    unfold tpm_wmi_instance.
    destruct tpm as [sv en act mid mv]; simpl.
    destruct sv as [v|]; [destruct (negb (String.eqb v ""))|];
      (destruct en as [[]|]; [| |destruct act as [[]|]]);
      simpl; (destruct (truthy mid); [|destruct (truthy mv)]);
      rewrite ?dict_get_set; simpl; in_labels.
  - unfold tpm_tpmtool. destruct (negb is_windows); [exact Hi|].
    destruct o_tool as [output| | | |]; try exact Hi.
    revert Hi. generalize tpm_init.
    induction (split_lines (strip output)) as [|l ls IH]; intros r Hr; simpl; [exact Hr|].
    apply IH. apply tpmtool_line_status. exact Hr.
  - unfold tpm_powershell. destruct (negb is_windows); [exact Hp|].
    destruct o_ps as [rc stdout json| | |]; try exact Hp.
    destruct (_ && _); [|exact Hp].
    destruct json as [[data|]|]; [| exact Hp |].
    + unfold tpm_json.
      assert (Hr2 : forall r1 : tpm_record,
                 In (dict_get r1 "status") (map (fun s => Some (JStr s)) tpm_status_labels) ->
                 In (dict_get
                       match dict_get data "TpmEnabled" with
                       | Some v => dict_set r1 "status"
                                     (JStr (if jtruthy v then "Habilitado" else "Desabilitado"))
                       | None =>
                           match dict_get data "TpmReady" with
                           | Some v => dict_set r1 "status"
                                         (JStr (if jtruthy v then "Pronto" else "Não pronto"))
                           | None => r1
                           end
                       end "status") (map (fun s => Some (JStr s)) tpm_status_labels)).
      { intros r1 H1.
        destruct (dict_get data "TpmEnabled") as [v|];
          [|destruct (dict_get data "TpmReady") as [v|]];
          [rewrite dict_get_set_any; simpl; destruct (jtruthy v); in_labels
          |rewrite dict_get_set_any; simpl; destruct (jtruthy v); in_labels
          |exact H1]. }
      assert (Hr1 : In (dict_get
                          match member_truthy data "ManufacturerVersion" with
                          | Some v => dict_set tpm_ps_init "version" v
                          | None => tpm_ps_init
                          end "status") (map (fun s => Some (JStr s)) tpm_status_labels))
        by (destruct (member_truthy data "ManufacturerVersion");
            [rewrite dict_get_set_any|]; exact Hp).
      pose proof (Hr2 _ Hr1) as H2.
      destruct (member_truthy data "ManufacturerIdTxt");
        [rewrite dict_get_set_any; exact H2|].
      destruct (member_truthy data "ManufacturerId");
        [rewrite dict_get_set_any; exact H2|exact H2].
    + revert Hp. generalize tpm_ps_init.
      induction (split_lines (strip stdout)) as [|l ls IH]; intros r Hr; simpl; [exact Hr|].
      apply IH. apply tpm_text_line_status. exact Hr.
Qed.
